(** * Gandi LiveDNS Ansible modules: a shallow embedding

    Two Python modules are embedded here:
    - [library/gandi_livedns.py]       (module [Livedns]): manage one record set;
    - [library/gandi_livedns_facts.py] (module [LivednsFacts]): read record sets.

    Both are sequential programs that talk to the provider through
    [fetch_url] and leave through [exit_json] / [fail_json].  They are
    embedded as functions in a state-and-error monad: the state is the list
    of HTTP requests sent so far together with the [changed] attribute of
    the [GandiAPI] object, the error is a [fail_json] exit or an uncaught
    Python exception.  The provider is an arbitrary function from the
    requests already sent and the current request to a response.

    Modelling conventions:
    - Python 3 semantics; [str] is [string]; the response content, which is
      [bytes], is a [string] as well, one character per byte;
    - [str.lower] follows the case mapping of Unicode, which is not part of
      the repository: it is the parameter [lower] of the class [StrLower],
      known to keep a non-empty string non-empty and to change only the
      letters A to Z in a string of ASCII characters; the examples, whose
      names are ASCII, run with the instance that does just that;
    - decoded JSON (the result of [json.loads]) is the type [json]; Python
      [None] and JSON [null] are both [JNull]; JSON numbers are integers;
    - [json.dumps] and [json.loads] themselves are the transport's: a request
      carries the payload value, a response carries the decoded value or the
      decoder's error text;
    - the module parameters [values] are strings, as in the module's
      documentation. *)

From Stdlib Require Import ZArith List String Ascii Bool Lia DecimalString.
From Stdlib Require Import RelationClasses.
Import ListNotations.
Open Scope string_scope.
Open Scope list_scope.
Open Scope Z_scope.

(** String concatenation, kept apart from list append. *)
Infix "+++" := String.append (right associativity, at level 60).

(** ** Python values *)

Module Py.

#[warnings="-register-all"]
Inductive json : Type :=
| JNull
| JBool (b : bool)
| JNum (n : Z)
| JStr (s : string)
| JList (l : list json)
| JObj (kvs : list (string * json)).

Inductive pyexn : Type := KeyError | TypeError | IndexError | AttributeError.

(** How an invocation can end other than by returning. *)
Inductive failure : Type :=
| fail_json_exit (msg : string)   (* module.fail_json(msg=...) *)
| invalid_arguments               (* AnsibleModule rejected the arguments *)
| uncaught (e : pyexn).           (* a Python exception nobody catches *)

Inductive outcome (A : Type) : Type :=
| Ret (a : A)
| Fail (f : failure).
Arguments Ret {A} a.
Arguments Fail {A} f.

(** [bool(v)] *)
Definition py_truthy (j : json) : bool :=
  match j with
  | JNull => false
  | JBool b => b
  | JNum n => negb (n =? 0)
  | JStr s => negb (s =? "")%string
  | JList l => match l with [] => false | _ => true end
  | JObj kvs => match kvs with [] => false | _ => true end
  end.

(** [bool(s)] for a parameter that is a string or [None] *)
Definition str_truthy (o : option string) : bool :=
  match o with
  | Some s => negb (s =? "")%string
  | None => false
  end.

Definition of_opt_str (o : option string) : json :=
  match o with Some s => JStr s | None => JNull end.

Definition of_opt_int (o : option Z) : json :=
  match o with Some n => JNum n | None => JNull end.

Definition of_opt_strs (o : option (list string)) : json :=
  match o with Some l => JList (map JStr l) | None => JNull end.

(** Decimal rendering of an integer, as [str.format] does. *)
Definition dec (z : Z) : string := NilZero.string_of_int (Z.to_int z).

(** ['%s' % v] for a parameter that is a string or [None] *)
Definition fmt_opt (o : option string) : string :=
  match o with Some s => s | None => "None" end.

(** [repr(s)] of a Python 3 string: single quotes unless the string holds a
    single quote and no double quote; backslash, the quote and control
    characters escaped. *)
Definition backslash : ascii := "092"%char.
Definition squote : ascii := "039"%char.
Definition dquote : ascii := "034"%char.

Definition hex_digit (n : nat) : ascii :=
  ascii_of_nat (if (n <? 10)%nat then 48 + n else 87 + n)%nat.

Definition escape (q c : ascii) : string :=
  let n := nat_of_ascii c in
  if Ascii.eqb c backslash then String backslash (String backslash "")
  else if Ascii.eqb c q then String backslash (String q "")
  else if (n =? 9)%nat then String backslash "t"
  else if (n =? 10)%nat then String backslash "n"
  else if (n =? 13)%nat then String backslash "r"
  else if ((n <? 32) || (n =? 127))%nat
       then String backslash
              (String "x" (String (hex_digit (n / 16)) (String (hex_digit (n mod 16)) "")))
  else String c "".

Fixpoint escape_all (q : ascii) (s : string) : string :=
  match s with
  | EmptyString => ""
  | String c r => escape q c +++ escape_all q r
  end.

Fixpoint contains (c : ascii) (s : string) : bool :=
  match s with
  | EmptyString => false
  | String c' r => Ascii.eqb c c' || contains c r
  end.

Definition repr_str (s : string) : string :=
  let q := if contains squote s && negb (contains dquote s) then dquote else squote in
  String q (escape_all q s +++ String q "").

(** [repr(b)] of a Python 3 [bytes] object, which is also what [str.format]
    writes for it: the letter b, then between quotes (chosen as for a
    string) the bytes, with backslash, the quote, tab, newline and carriage
    return escaped and every byte below 0x20 or above 0x7e written [\xhh]. *)
Definition escape_byte (q c : ascii) : string :=
  let n := nat_of_ascii c in
  if Ascii.eqb c backslash then String backslash (String backslash "")
  else if Ascii.eqb c q then String backslash (String q "")
  else if (n =? 9)%nat then String backslash "t"
  else if (n =? 10)%nat then String backslash "n"
  else if (n =? 13)%nat then String backslash "r"
  else if ((n <? 32) || (127 <=? n))%nat
       then String backslash
              (String "x" (String (hex_digit (n / 16)) (String (hex_digit (n mod 16)) "")))
  else String c "".

Fixpoint escape_bytes (q : ascii) (b : string) : string :=
  match b with
  | EmptyString => ""
  | String c r => escape_byte q c +++ escape_bytes q r
  end.

Definition bytes_repr (b : string) : string :=
  let q := if contains squote b && negb (contains dquote b) then dquote else squote in
  String "b" (String q (escape_bytes q b +++ String q "")).

Fixpoint join (sep : string) (l : list string) : string :=
  match l with
  | [] => ""
  | [x] => x
  | x :: r => x +++ sep +++ join sep r
  end.

(** [repr(v)] of a decoded JSON value *)
Fixpoint py_repr (j : json) : string :=
  match j with
  | JNull => "None"
  | JBool b => if b then "True" else "False"
  | JNum n => dec n
  | JStr s => repr_str s
  | JList l => "[" +++ join ", " (map py_repr l) +++ "]"
  | JObj kvs =>
      "{" +++ join ", " (map (fun kv => repr_str (fst kv) +++ ": " +++ py_repr (snd kv)) kvs)
          +++ "}"
  end.

(** ['%s' % v] of a decoded JSON value *)
Definition py_str (j : json) : string :=
  match j with
  | JStr s => s
  | _ => py_repr j
  end.

(** [d[k]] on a decoded dict: first binding of the key. *)
Fixpoint assoc (k : string) (kvs : list (string * json)) : option json :=
  match kvs with
  | [] => None
  | (k', v) :: rest => if (k =? k')%string then Some v else assoc k rest
  end.

(** [v[k]] with a string key [k] *)
Definition py_getitem (v : json) (k : string) : outcome json :=
  match v with
  | JObj kvs => match assoc k kvs with
                | Some x => Ret x
                | None => Fail (uncaught KeyError)
                end
  | _ => Fail (uncaught TypeError)
  end.

(** [v.get(k, None)] *)
Definition py_get (v : json) (k : string) : outcome json :=
  match v with
  | JObj kvs => match assoc k kvs with
                | Some x => Ret x
                | None => Ret JNull
                end
  | _ => Fail (uncaught AttributeError)
  end.

Definition chars (s : string) : list json :=
  map (fun c => JStr (String c EmptyString)) (list_ascii_of_string s).

(** The elements [for x in v] visits. *)
Definition py_iter (v : json) : outcome (list json) :=
  match v with
  | JList l => Ret l
  | JObj kvs => Ret (map (fun kv => JStr (fst kv)) kvs)
  | JStr s => Ret (chars s)
  | _ => Fail (uncaught TypeError)
  end.

Definition hashable (j : json) : bool :=
  match j with
  | JList _ | JObj _ => false
  | _ => true
  end.

(** [set(v)]: the elements, kept as a list; only membership is ever used. *)
Definition py_set (v : json) : outcome (list json) :=
  match py_iter v with
  | Ret l => if forallb hashable l then Ret l else Fail (uncaught TypeError)
  | Fail f => Fail f
  end.

(** [v == s] for a string [s] *)
Definition json_eq_str (v : json) (s : string) : bool :=
  match v with
  | JStr s' => (s' =? s)%string
  | _ => false
  end.

(** [v == n] for an int [n]; [True == 1] and [False == 0] in Python *)
Definition json_eq_int (v : json) (n : Z) : bool :=
  match v with
  | JNum m => m =? n
  | JBool b => (if b then 1 else 0) =? n
  | _ => false
  end.

(** [set(l) == set(vs)], [vs] strings: each side is included in the other. *)
Definition set_eq (l : list json) (vs : list string) : bool :=
  forallb (fun j => existsb (json_eq_str j) vs) l
  && forallb (fun v => existsb (fun j => json_eq_str j v) l) vs.

(** [records[0]] where [records] is a list or [None] *)
Definition py_first (records : option (list json)) : outcome json :=
  match records with
  | None => Fail (uncaught TypeError)
  | Some [] => Fail (uncaught IndexError)
  | Some (r :: _) => Ret r
  end.

Definition lower_ascii (c : ascii) : ascii :=
  let n := nat_of_ascii c in
  if ((65 <=? n) && (n <=? 90))%nat then ascii_of_nat (n + 32) else c.

(** What [str.lower] does to a string of ASCII characters. *)
Fixpoint ascii_lower (s : string) : string :=
  match s with
  | EmptyString => EmptyString
  | String c r => String (lower_ascii c) (ascii_lower r)
  end.

(** A string of ASCII characters only. *)
Fixpoint is_ascii (s : string) : bool :=
  match s with
  | EmptyString => true
  | String c r => (nat_of_ascii c <? 128)%nat && is_ascii r
  end.

(** Python's [str.lower], taken as a parameter together with two facts about
    it: the lowercase form of a non-empty string is not empty, and in a
    string of ASCII characters only the letters A to Z change. *)
Class StrLower : Type := {
  lower : string -> string;
  lower_nonempty : forall s, lower s = EmptyString -> s = EmptyString;
  lower_on_ascii : forall s, is_ascii s = true -> lower s = ascii_lower s
}.

(** [lowercase_string]: identical in both source files. *)
Definition lowercase_string `{StrLower} (param : option string) : option string :=
  match param with
  | None => None
  | Some s => Some (lower s)
  end.

End Py.
Export Py.

(** ** The transport and the host framework *)

Module Ansible.

Inductive http_method : Type := GET | POST | PUT | DELETE.

Definition method_name (m : http_method) : string :=
  match m with
  | GET => "GET" | POST => "POST" | PUT => "PUT" | DELETE => "DELETE"
  end.

Definition mutating (m : http_method) : bool :=
  match m with GET => false | _ => true end.

Record request : Type := mkRequest {
  req_method : http_method;
  req_url : string;
  req_api_key : string;          (* the X-Api-Key header *)
  req_data : option json         (* the body handed to json.dumps *)
}.

(** What [resp.read()] followed by [json.loads] gives. *)
Inductive body : Type :=
| NoContent                              (* no response object, or empty content *)
| Content (j : json)                     (* decoded *)
| Undecodable (err content : string).    (* json.loads raised [err] on the bytes [content] *)

Record response : Type := mkResponse {
  status : Z;                    (* info['status'] *)
  resp_body : body
}.

(** The value [_gandi_api_call] takes from a body, when there is one. *)
Definition decoded (b : body) : option json :=
  match b with
  | NoContent => Some JNull
  | Content j => Some j
  | Undecodable _ _ => None
  end.

(** The provider answers a request knowing the requests sent before it. *)
Definition provider : Type := list request -> request -> response.

Record session : Type := mkSession {
  requests : list request;       (* in the order sent *)
  changed : bool                 (* GandiAPI.changed *)
}.

(** [changed = False] is the class attribute both classes start from. *)
Definition fresh : session := mkSession [] false.

Definition M (A : Type) : Type := provider -> session -> outcome A * session.

Definition ret {A} (a : A) : M A := fun _ s => (Ret a, s).

Definition bind {A B} (m : M A) (k : A -> M B) : M B :=
  fun p s =>
    match m p s with
    | (Ret a, s') => k a p s'
    | (Fail f, s') => (Fail f, s')
    end.

Definition lift {A} (o : outcome A) : M A := fun _ s => (o, s).

Definition fail_json {A} (msg : string) : M A :=
  lift (Fail (fail_json_exit msg)).

Definition set_changed : M unit :=
  fun _ s => (Ret tt, mkSession (requests s) true).

Definition get_changed : M bool :=
  fun _ s => (Ret (changed s), s).

(** [fetch_url]: send the request, record it, hand back the response. *)
Definition fetch_url (r : request) : M response :=
  fun p s => (Ret (p (requests s) r), mkSession (requests s ++ [r]) (changed s)).

Declare Scope py_scope.
Delimit Scope py_scope with py.
Notation "x <- m ;; k" := (bind m (fun x => k))
  (at level 100, m at next level, right associativity) : py_scope.
Notation "m ;;; k" := (bind m (fun _ => k))
  (at level 100, right associativity) : py_scope.

(** How a module run ends. *)
Inductive exit : Type :=
| exit_json (changed : bool) (kwargs : list (string * json))
| failed (f : failure).

Definition api_endpoint : string := "https://dns.api.gandi.net/api/v5".

Definition type_choices : list string :=
  ["A"; "AAAA"; "ALIAS"; "CAA"; "CDS"; "CNAME"; "DNAME"; "DS"; "KEY"; "LOC";
   "MX"; "NS"; "PTR"; "SPF"; "SRV"; "SSHFP"; "TLSA"; "TXT"; "WKS"].

Definition valid_choice (o : option string) : bool :=
  match o with
  | None => true
  | Some t => existsb (String.eqb t) type_choices
  end.

Definition is_some {A} (o : option A) : bool :=
  match o with Some _ => true | None => false end.

End Ansible.
Export Ansible.
Open Scope py_scope.

(** ** Code the two source files share word for word *)

Module Common.

(** [data = None; if payload: data = json.dumps(payload)] *)
Definition request_data (payload : option json) : option json :=
  match payload with
  | Some j => if py_truthy j then Some j else None
  | None => None
  end.

(** The two message formats of [_gandi_api_call]. *)
Definition api_error (err_s : string) (status : Z) (method : http_method)
    (api_call : string) : string :=
  "API error " +++ err_s +++ "; Status: " +++ dec status +++ "; Method: "
    +++ method_name method +++ ": Call: " +++ api_call.

Definition parse_error (err content : string) : string :=
  "; Failed to parse API response with error " +++ err +++ ": " +++ bytes_repr content.

(** The loop of [_get_zone_id] over the zones already fetched. *)
Fixpoint find_zone (zs : list json) (zone_name : string) : M json :=
  match zs with
  | [] => fail_json ("No zone found with name " +++ zone_name)
  | z :: rest =>
      n <- lift (py_getitem z "name") ;;
      if json_eq_str n zone_name then lift (py_getitem z "uuid")
      else find_zone rest zone_name
  end.

(** The common prefix of every record path:
    [if zone_id: url = '/zones/%s' % (zone_id) else: url = '/domains/%s' % (domain)] *)
Definition scope_url (zone_id : json) (domain : option string) : string :=
  if py_truthy zone_id then "/zones/" +++ py_str zone_id
  else "/domains/" +++ fmt_opt domain.

(** The URL [get_records] builds: the scope, [/records], then the name when
    there is one, then the type when there are both. *)
Definition records_url (name type : option string) (zone_id : json)
    (domain : option string) : string :=
  let url := scope_url zone_id domain +++ "/records" in
  if str_truthy name then
    let url := url +++ "/" +++ fmt_opt name in
    if str_truthy type then url +++ "/" +++ fmt_opt type else url
  else url.

(** The list comprehension [[r for r in records if r['rrset_type'] == type]] *)
Fixpoint filter_type (records : list json) (type : string) : outcome (list json) :=
  match records with
  | [] => Ret []
  | r :: rest =>
      match py_getitem r "rrset_type" with
      | Fail f => Fail f
      | Ret t =>
          match filter_type rest type with
          | Fail f => Fail f
          | Ret kept => Ret (if json_eq_str t type then r :: kept else kept)
          end
      end
  end.

(** The loop of [build_result] / [build_results] over [('name', 'type', 'ttl', 'values')]. *)
Fixpoint copy_fields (result : json) (ks : list string)
    : outcome (list (string * json)) :=
  match ks with
  | [] => Ret []
  | k :: rest =>
      match py_get result ("rrset_" +++ k) with
      | Fail f => Fail f
      | Ret v =>
          match copy_fields result rest with
          | Fail f => Fail f
          | Ret res => Ret (match v with JNull => res | _ => (k, v) :: res end)
          end
      end
  end.

Definition msg_no_scope : string :=
  "At least one of zone and domain parameters need to be defined.".

End Common.
Export Common.

(** ** library/gandi_livedns.py *)

Module Livedns.

Inductive state_t : Type := present | absent.

(** [module.params] once [AnsibleModule] has applied the argument spec. *)
Record params : Type := mkParams {
  param_api_key : string;
  param_record : option string;
  param_state : state_t;
  param_ttl : option Z;
  param_type : option string;
  param_values : option (list string);
  param_zone : option string;
  param_domain : option string
}.

Record module_t : Type := mkModule {
  module_params : params;
  check_mode : bool
}.

(** The task arguments as the playbook gives them. *)
Record args : Type := mkArgs {
  arg_api_key : option string;
  arg_record : option string;
  arg_state : option state_t;
  arg_ttl : option Z;
  arg_type : option string;
  arg_values : option (list string);
  arg_zone : option string;
  arg_domain : option string
}.

Definition default {A} (d : A) (o : option A) : option A :=
  match o with Some x => Some x | None => Some d end.

(** [AnsibleModule(argument_spec=..., supports_check_mode=True, required_if=...)]
    of [main]: required [api_key], the defaults of [record], [state] and [ttl],
    the choices of [type], and the two [required_if] rules. *)
Definition AnsibleModule (a : args) (check : bool) : outcome module_t :=
  match arg_api_key a with
  | None => Fail invalid_arguments
  | Some key =>
    let record := default "@" (arg_record a) in
    let state := match arg_state a with Some s => s | None => present end in
    let ttl := default 10800 (arg_ttl a) in
    if negb (valid_choice (arg_type a)) then Fail invalid_arguments
    else
      let required_ok :=
        match state with
        | present => is_some record && is_some (arg_type a) && is_some (arg_values a)
        | absent => is_some record && is_some (arg_type a)
        end in
      if required_ok then
        Ret (mkModule (mkParams key record state ttl (arg_type a) (arg_values a)
                                (arg_zone a) (arg_domain a)) check)
      else Fail invalid_arguments
  end.

Record GandiAPI : Type := mkGandiAPI {
  module : module_t;
  api_key : string;
  record : option string;
  state : state_t;
  ttl : option Z;
  type : option string;
  values : option (list string);
  zone : option string;
  domain : option string
}.

(** [GandiAPI.__init__] *)
Definition init `{StrLower} (m : module_t) : GandiAPI :=
  let p := module_params m in
  mkGandiAPI m
    (param_api_key p)
    (lowercase_string (param_record p))
    (param_state p)
    (param_ttl p)
    (param_type p)
    (param_values p)
    (param_zone p)
    (lowercase_string (param_domain p)).

(** [GandiAPI.error_strings.get(status, '')] *)
Definition error_strings (status : Z) : string :=
  if status =? 400 then "Bad request"
  else if status =? 401 then "Permission denied"
  else if status =? 404 then "Resource not found"
  else "".

(** [GandiAPI._gandi_api_call] *)
Definition _gandi_api_call (self : GandiAPI) (api_call : string)
    (method : http_method) (payload : option json) (error_on_404 : bool)
    : M (json * Z) :=
  let data := request_data payload in
  resp <- fetch_url (mkRequest method (api_endpoint +++ api_call) (api_key self) data) ;;
  let st := status resp in
  let error_msg :=
    if (400 <=? st) && (negb (st =? 404) || error_on_404)
    then api_error (error_strings st) st method api_call
    else "" in
  let '(result, error_msg) :=
    match resp_body resp with
    | NoContent => (JNull, error_msg)
    | Content j => (j, error_msg)
    | Undecodable e c => (JNull, error_msg +++ parse_error e c)
    end in
  if negb (error_msg =? "")%string then fail_json error_msg
  else ret (result, st).

(** [GandiAPI.get_zones] *)
Definition get_zones (self : GandiAPI) : M json :=
  r <- _gandi_api_call self "/zones" GET None true ;;
  ret (fst r).

(** [GandiAPI._get_zone_id] *)
Definition _get_zone_id (self : GandiAPI) (zone_name : string) : M json :=
  zones <- get_zones self ;;
  zs <- lift (py_iter zones) ;;
  find_zone zs zone_name.

(** [GandiAPI.get_records]; the result is [None] or a list. *)
Definition get_records (self : GandiAPI) (name type : option string)
    (zone_id : json) (domain : option string) : M (option (list json)) :=
  let url := records_url name type zone_id domain in
  r <- _gandi_api_call self url GET None false ;;
  let '(records, status) := r in
  if status =? 404 then ret None
  else
    let records := match records with JList l => l | other => [other] end in
    if negb (str_truthy name) && str_truthy type then
      kept <- lift (filter_type records (fmt_opt type)) ;;
      ret (Some kept)
    else ret (Some records).

(** [GandiAPI.create_record]; the result is the new record or [None]. *)
Definition create_record (self : GandiAPI) (name type : option string)
    (values : option (list string)) (ttl : option Z)
    (zone_id : json) (domain : option string) : M json :=
  let url := scope_url zone_id domain +++ "/records" in
  let new_record := JObj [("rrset_name", of_opt_str name);
                          ("rrset_type", of_opt_str type);
                          ("rrset_values", of_opt_strs values);
                          ("rrset_ttl", of_opt_int ttl)] in
  r <- _gandi_api_call self url POST (Some new_record) true ;;
  if snd r =? 201 then ret new_record else ret JNull.

(** [GandiAPI.update_record] *)
Definition update_record (self : GandiAPI) (name type : option string)
    (values : option (list string)) (ttl : option Z)
    (zone_id : json) (domain : option string) : M json :=
  let url := scope_url zone_id domain
             +++ "/records/" +++ fmt_opt name +++ "/" +++ fmt_opt type in
  let new_record := JObj [("rrset_values", of_opt_strs values);
                          ("rrset_ttl", of_opt_int ttl)] in
  r <- _gandi_api_call self url PUT (Some new_record) true ;;
  ret (fst r).

Definition msg_delete_needs_type_and_record : string :=
  "You must provide a type and a record to delete a record".

Definition msg_delete_with_value : string :=
  "You cannot provide a value when deleting a record".

(** [GandiAPI.delete_record] *)
Definition delete_record (self : GandiAPI) (name type : option string)
    (zone_id : json) (domain : option string) : M unit :=
  if negb (is_some (Livedns.type self)) || negb (is_some (record self))
  then fail_json msg_delete_needs_type_and_record
  else if is_some (values self)
  then fail_json msg_delete_with_value
  else
    let url := scope_url zone_id domain
               +++ "/records/" +++ fmt_opt name +++ "/" +++ fmt_opt type in
    _gandi_api_call self url DELETE None true ;;;
    ret tt.

(** [if self.zone: zone_id = self._get_zone_id(self.zone) else: zone_id = None] *)
Definition resolve_zone (self : GandiAPI) : M json :=
  match zone self with
  | Some z => if negb (z =? "")%string then _get_zone_id self z else ret JNull
  | None => ret JNull
  end.

Definition nonempty (records : option (list json)) : bool :=
  match records with
  | Some (_ :: _) => true
  | _ => false
  end.

(** [GandiAPI.delete_dns_records] *)
Definition delete_dns_records (self : GandiAPI) : M bool :=
  zone_id <- resolve_zone self ;;
  records <- get_records self (record self) (Livedns.type self) zone_id (domain self) ;;
  (if nonempty records then
     set_changed ;;;
     if negb (check_mode (module self))
     then delete_record self (record self) (Livedns.type self) zone_id (domain self)
     else ret tt
   else ret tt) ;;;
  get_changed.

(** The dictionary [new_record] that [ensure_dns_record] starts with. *)
Definition desired_record (self : GandiAPI) : json :=
  JObj [("type", of_opt_str (Livedns.type self));
        ("name", of_opt_str (record self));
        ("values", of_opt_strs (values self));
        ("ttl", of_opt_int (ttl self))].

(** [self.ttl is not None and record['rrset_ttl'] != self.ttl] *)
Definition ttl_differs (self : GandiAPI) (record : json) : outcome bool :=
  match ttl self with
  | None => Ret false
  | Some t =>
      match py_getitem record "rrset_ttl" with
      | Ret v => Ret (negb (json_eq_int v t))
      | Fail f => Fail f
      end
  end.

(** [self.values is not None and set(record['rrset_values']) != set(self.values)] *)
Definition values_differ (self : GandiAPI) (record : json) : outcome bool :=
  match values self with
  | None => Ret false
  | Some vs =>
      match py_getitem record "rrset_values" with
      | Ret v =>
          match py_set v with
          | Ret l => Ret (negb (set_eq l vs))
          | Fail f => Fail f
          end
      | Fail f => Fail f
      end
  end.

(** [GandiAPI.ensure_dns_record] *)
Definition ensure_dns_record (self : GandiAPI) : M (json * bool) :=
  let new_record := desired_record self in
  zone_id <- resolve_zone self ;;
  records <- get_records self (record self) (Livedns.type self) zone_id (domain self) ;;
  match records with
  | Some (record :: _) =>
      by_ttl <- lift (ttl_differs self record) ;;
      by_values <- lift (values_differ self record) ;;
      let do_update := by_ttl || by_values in
      if do_update then
        result <-
          (if check_mode (module self) then ret new_record
           else
             update_record self (Livedns.record self) (Livedns.type self)
                           (values self) (ttl self) zone_id (domain self) ;;;
             records <- get_records self (Livedns.record self) (Livedns.type self)
                                    zone_id (domain self) ;;
             lift (py_first records)) ;;
        set_changed ;;;
        c <- get_changed ;;
        ret (result, c)
      else
        c <- get_changed ;;
        ret (record, c)
  | _ =>
      result <-
        (if check_mode (module self) then ret new_record
         else create_record self (record self) (Livedns.type self)
                            (values self) (ttl self) zone_id (domain self)) ;;
      set_changed ;;;
      c <- get_changed ;;
      ret (result, c)
  end.

(** [GandiAPI.build_result] *)
Definition build_result (self : GandiAPI) (result : json) : outcome json :=
  match result with
  | JNull => Ret JNull
  | _ =>
      match copy_fields result ["name"; "type"; "ttl"; "values"] with
      | Fail f => Fail f
      | Ret res =>
          Ret (JObj (res ++ (if str_truthy (zone self)
                             then [("zone", of_opt_str (zone self))]
                             else [("domain", of_opt_str (domain self))])))
      end
  end.

(** What [main] does once the arguments are accepted. *)
Definition run_module `{StrLower} (m : module_t) : M exit :=
  if negb (str_truthy (param_zone (module_params m)))
     && negb (str_truthy (param_domain (module_params m)))
  then fail_json msg_no_scope
  else
    let gandi_api := init m in
    match state gandi_api with
    | present =>
        r <- ensure_dns_record gandi_api ;;
        let '(result, changed) := r in
        built <- lift (build_result gandi_api result) ;;
        ret (exit_json changed [("result", JObj [("record", built)])])
    | absent =>
        changed <- delete_dns_records gandi_api ;;
        ret (exit_json changed [])
    end.

(** [main]: the exit of the module and the requests it sent, in order. *)
Definition main `{StrLower} (a : args) (check : bool) (p : provider)
    : exit * list request :=
  match AnsibleModule a check with
  | Fail f => (failed f, [])
  | Ret m =>
      match run_module m p fresh with
      | (Ret e, s) => (e, requests s)
      | (Fail f, s) => (failed f, requests s)
      end
  end.

End Livedns.

(** ** library/gandi_livedns_facts.py *)

Module LivednsFacts.

Record params : Type := mkParams {
  param_api_key : string;
  param_record : option string;
  param_type : option string;
  param_zone : option string;
  param_domain : option string
}.

Record module_t : Type := mkModule {
  module_params : params;
  check_mode : bool
}.

Record args : Type := mkArgs {
  arg_api_key : option string;
  arg_record : option string;
  arg_type : option string;
  arg_zone : option string;
  arg_domain : option string
}.

(** [AnsibleModule(argument_spec=..., supports_check_mode=True)] of [main]:
    required [api_key] and the choices of [type]; no defaults. *)
Definition AnsibleModule (a : args) (check : bool) : outcome module_t :=
  match arg_api_key a with
  | None => Fail invalid_arguments
  | Some key =>
      if negb (valid_choice (arg_type a)) then Fail invalid_arguments
      else Ret (mkModule (mkParams key (arg_record a) (arg_type a)
                                   (arg_zone a) (arg_domain a)) check)
  end.

Record GandiAPI : Type := mkGandiAPI {
  module : module_t;
  api_key : string;
  record : option string;
  type : option string;
  zone : option string;
  domain : option string
}.

(** [GandiAPI.__init__] *)
Definition init `{StrLower} (m : module_t) : GandiAPI :=
  let p := module_params m in
  mkGandiAPI m
    (param_api_key p)
    (lowercase_string (param_record p))
    (param_type p)
    (param_zone p)
    (lowercase_string (param_domain p)).

(** [GandiAPI.error_strings.get(status, '')] *)
Definition error_strings (status : Z) : string :=
  if status =? 401 then "Permission denied"
  else if status =? 404 then "Resource not found"
  else "".

(** [GandiAPI._gandi_api_call]: the parameter [error_on_404] is accepted and
    never read. *)
Definition _gandi_api_call (self : GandiAPI) (api_call : string)
    (method : http_method) (payload : option json) (error_on_404 : bool)
    : M (json * Z) :=
  let data := request_data payload in
  resp <- fetch_url (mkRequest method (api_endpoint +++ api_call) (api_key self) data) ;;
  let st := status resp in
  let error_msg :=
    if 400 <=? st
    then api_error (error_strings st) st method api_call
    else "" in
  let '(result, error_msg) :=
    match resp_body resp with
    | NoContent => (JNull, error_msg)
    | Content j => (j, error_msg)
    | Undecodable e c => (JNull, error_msg +++ parse_error e c)
    end in
  if negb (error_msg =? "")%string then fail_json error_msg
  else ret (result, st).

(** The loop of [build_results] over the records. *)
Fixpoint build_each (self : GandiAPI) (results : list json) : outcome (list json) :=
  match results with
  | [] => Ret []
  | res :: rest =>
      match copy_fields res ["name"; "type"; "ttl"; "values"] with
      | Fail f => Fail f
      | Ret d =>
          let d := d ++ (if str_truthy (zone self)
                         then [("zone", of_opt_str (zone self))]
                         else [("domain", of_opt_str (domain self))]) in
          match build_each self rest with
          | Fail f => Fail f
          | Ret tail => Ret (JObj d :: tail)
          end
      end
  end.

(** [GandiAPI.build_results] *)
Definition build_results (self : GandiAPI) (results : option (list json))
    : outcome json :=
  match results with
  | None => Ret JNull
  | Some l =>
      match build_each self l with
      | Fail f => Fail f
      | Ret ret => Ret (JList ret)
      end
  end.

(** [GandiAPI.get_zones] *)
Definition get_zones (self : GandiAPI) : M json :=
  r <- _gandi_api_call self "/zones" GET None true ;;
  ret (fst r).

(** [GandiAPI._get_zone_id] *)
Definition _get_zone_id (self : GandiAPI) (zone_name : string) : M json :=
  zones <- get_zones self ;;
  zs <- lift (py_iter zones) ;;
  find_zone zs zone_name.

(** [GandiAPI.get_records] *)
Definition get_records (self : GandiAPI) (name type : option string)
    (zone_id : json) (domain : option string) : M (option (list json)) :=
  let url := records_url name type zone_id domain in
  r <- _gandi_api_call self url GET None false ;;
  let '(records, status) := r in
  if status =? 404 then ret None
  else
    let records := match records with JList l => l | other => [other] end in
    if negb (str_truthy name) && str_truthy type then
      kept <- lift (filter_type records (fmt_opt type)) ;;
      ret (Some kept)
    else ret (Some records).

(** [GandiAPI.get_dns_records] *)
Definition get_dns_records (self : GandiAPI) : M (option (list json)) :=
  zone_id <- match zone self with
             | Some z => if negb (z =? "")%string then _get_zone_id self z else ret JNull
             | None => ret JNull
             end ;;
  get_records self (record self) (LivednsFacts.type self) zone_id (domain self).

(** What [main] does once the arguments are accepted. *)
Definition run_module `{StrLower} (m : module_t) : M exit :=
  if negb (str_truthy (param_zone (module_params m)))
     && negb (str_truthy (param_domain (module_params m)))
  then fail_json msg_no_scope
  else
    let gandi_api := init m in
    results <- get_dns_records gandi_api ;;
    built <- lift (build_results gandi_api results) ;;
    let facts := JObj [("records", built)] in
    ret (exit_json false [("ansible_facts", JObj [("gandi_livedns_facts", facts)])]).

(** [main]: the exit of the module and the requests it sent, in order. *)
Definition main `{StrLower} (a : args) (check : bool) (p : provider)
    : exit * list request :=
  match AnsibleModule a check with
  | Fail f => (failed f, [])
  | Ret m =>
      match run_module m p fresh with
      | (Ret e, s) => (e, requests s)
      | (Fail f, s) => (failed f, requests s)
      end
  end.

End LivednsFacts.

(** ** Vocabulary of the statements *)

Module Spec.

(** A GET request. *)
Definition is_get (r : request) : Prop := req_method r = GET.

(** A request whose URL starts with [api_endpoint] followed by [path]. *)
Definition under (path : string) (r : request) : Prop :=
  String.prefix (api_endpoint +++ path) (req_url r) = true.

(** A request on the records of the zone with identifier [zone_id]. *)
Definition zone_scoped (zone_id : json) (r : request) : Prop :=
  under ("/zones/" +++ py_str zone_id +++ "/records") r.

(** A record request of the given method, in the scope of [zone_id] / [domain]. *)
Definition record_request (m : http_method) (zone_id : json)
    (domain : option string) (r : request) : Prop :=
  req_method r = m /\ under (scope_url zone_id domain +++ "/records") r.

(** Whatever the provider and the session [s] it starts from, [m] ends in a
    session related to [s]. *)
Definition respects (R : session -> session -> Prop) {A} (m : M A) : Prop :=
  forall p s, R s (snd (m p s)).

(** [s'] is [s] with more requests sent, all of them satisfying [P]. *)
Definition extends (P : request -> Prop) (s s' : session) : Prop :=
  exists l, requests s' = requests s ++ l /\ Forall P l.

(** The same, and the [changed] attribute is left as it was. *)
Definition extends_quietly (P : request -> Prop) (s s' : session) : Prop :=
  extends P s s' /\ changed s' = changed s.

(** [m] only sends requests in [P]. *)
Definition sends {A} (P : request -> Prop) (m : M A) : Prop :=
  respects (extends P) m.

(** [m] only sends requests in [P] and does not touch [changed]. *)
Definition calls {A} (P : request -> Prop) (m : M A) : Prop :=
  respects (extends_quietly P) m.

(** The number of requests of [l] that are not GET requests. *)
Definition mutations (l : list request) : nat :=
  List.length (filter (fun r => mutating (req_method r)) l).

(** [m] sends at most [n] requests that are not GET requests. *)
Definition sends_at_most (n : nat) {A} (m : M A) : Prop :=
  forall p s, exists l,
    requests (snd (m p s)) = requests s ++ l /\ (mutations l <= n)%nat.

(** A request to the API endpoint carrying the key [key]. *)
Definition authenticated (key : string) (r : request) : Prop :=
  req_api_key r = key /\ String.prefix api_endpoint (req_url r) = true.

(** [r['rrset_type'] == type], false when [r] has no such key. *)
Definition has_type (type : string) (r : json) : bool :=
  match py_getitem r "rrset_type" with
  | Ret v => json_eq_str v type
  | Fail _ => false
  end.

(** What [build_result] keeps of a value read with [get]: nothing for
    [None]. *)
Definition kept (o : option json) : option json :=
  match o with
  | Some JNull => None
  | other => other
  end.

(** Two argument sets of the management module that differ at most in the
    case of the letters of [record] and [domain]. *)
Definition same_up_to_case `{StrLower} (a1 a2 : Livedns.args) : Prop :=
  Livedns.arg_api_key a1 = Livedns.arg_api_key a2
  /\ lowercase_string (Livedns.arg_record a1) = lowercase_string (Livedns.arg_record a2)
  /\ Livedns.arg_state a1 = Livedns.arg_state a2
  /\ Livedns.arg_ttl a1 = Livedns.arg_ttl a2
  /\ Livedns.arg_type a1 = Livedns.arg_type a2
  /\ Livedns.arg_values a1 = Livedns.arg_values a2
  /\ Livedns.arg_zone a1 = Livedns.arg_zone a2
  /\ lowercase_string (Livedns.arg_domain a1) = lowercase_string (Livedns.arg_domain a2).

End Spec.
Export Spec.

(** ** Providers used in the examples *)

Module Fixtures.

(** A provider that gives the same answer to every request. *)
Definition always (r : response) : provider := fun _ _ => r.

(** A provider that answers by method and URL, and [fallback] otherwise. *)
Fixpoint route (table : list (http_method * string * response))
    (fallback : response) : provider :=
  fun sent r =>
    match table with
    | [] => fallback
    | (m, url, resp) :: rest =>
        if (method_name m =? method_name (req_method r))%string
           && (url =? req_url r)%string
        then resp
        else route rest fallback sent r
    end.

(** The [GandiAPI] object of the management module for the given
    parameters, outside check mode unless [check] is set. *)
Definition gandi `{StrLower} (check : bool) (record : string) (state : Livedns.state_t)
    (ttl : Z) (type : string) (values : option (list string))
    (zone domain : option string) : Livedns.GandiAPI :=
  Livedns.init
    (Livedns.mkModule
       (Livedns.mkParams "dummyapitoken" (Some record) state (Some ttl)
                         (Some type) values zone domain)
       check).

(** The arguments of a task of the management module; [ttl] is left to its
    default. *)
Definition task (record : string) (state : Livedns.state_t) (type : string)
    (values : option (list string)) (zone domain : option string) : Livedns.args :=
  Livedns.mkArgs (Some "dummyapitoken") (Some record) (Some state) None
                 (Some type) values zone domain.

(** The arguments of a task of the facts module. *)
Definition facts_task (record type zone domain : option string)
    : LivednsFacts.args :=
  LivednsFacts.mkArgs (Some "dummyapitoken") record type zone domain.

(** A record set as the provider returns it. *)
Definition rrset (name type : string) (ttl : Z) (values : list string) : json :=
  JObj [("rrset_name", JStr name); ("rrset_type", JStr type);
        ("rrset_ttl", JNum ttl); ("rrset_values", JList (map JStr values))].

Definition get_request (url : string) : request :=
  mkRequest GET (api_endpoint +++ url) "dummyapitoken" None.

(** The provider's zone list: one zone, [my.com]. *)
Definition zones_my_com : json :=
  JList [JObj [("name", JStr "my.com"); ("uuid", JStr "zone-1")]].

(** A provider that knows the zone [my.com] and its record [www A]. *)
Definition my_com_provider : provider :=
  route [(GET, api_endpoint +++ "/zones", mkResponse 200 (Content zones_my_com));
         (GET, api_endpoint +++ "/zones/zone-1/records/www/A",
          mkResponse 200 (Content (rrset "www" "A" 10800 ["192.0.2.1"])))]
        (mkResponse 404 NoContent).

(** A provider whose answer changes once a PUT has been sent. *)
Definition after_put (before after : response) : provider :=
  fun sent _ =>
    if existsb (fun q => (method_name (req_method q) =? "PUT")%string) sent
    then after else before.

End Fixtures.
Export Fixtures.

(** * Properties *)

(** ** Lowercase on ASCII names *)

Lemma ascii_lower_nonempty (s : string) : ascii_lower s = "" -> s = "".
Proof. destruct s; [reflexivity | discriminate]. Qed.

(** The case mapping that changes the letters A to Z and nothing else.  On
    a string of ASCII characters every [StrLower] agrees with it; the
    examples below, whose record names and domains are ASCII, run with it. *)
#[global] Instance ascii_StrLower : StrLower :=
  {| lower := ascii_lower;
     lower_nonempty := ascii_lower_nonempty;
     lower_on_ascii := fun s _ => eq_refl |}.

(** ** Invariants of a computation *)

Section Respects.

Context (R : session -> session -> Prop) `{!PreOrder R}.

Lemma respects_ret {A} (a : A) : respects R (ret a).
Proof. intros p s. reflexivity. Qed.

Lemma respects_lift {A} (o : outcome A) : respects R (lift o).
Proof. intros p s. reflexivity. Qed.

Lemma respects_fail_json {A} (msg : string) : respects R (@fail_json A msg).
Proof. intros p s. reflexivity. Qed.

Lemma respects_get_changed : respects R get_changed.
Proof. intros p s. reflexivity. Qed.

Lemma respects_bind {A B} (m : M A) (k : A -> M B) :
  respects R m -> (forall a, respects R (k a)) -> respects R (bind m k).
Proof.
  intros Hm Hk p s. unfold bind.
  specialize (Hm p s).
  destruct (m p s) as [[a | f] s1]; simpl in *.
  - transitivity s1; [exact Hm | apply Hk].
  - exact Hm.
Qed.

Lemma respects_find_zone (zs : list json) (zone_name : string) :
  respects R (find_zone zs zone_name).
Proof.
  induction zs as [| z rest IH]; simpl.
  - apply respects_fail_json.
  - apply respects_bind; [apply respects_lift |].
    intros n. destruct (json_eq_str n zone_name); [apply respects_lift | exact IH].
Qed.

End Respects.

#[global] Instance extends_preorder (P : request -> Prop) : PreOrder (extends P).
Proof.
  split.
  - intros s. exists []. split; [now rewrite app_nil_r | constructor].
  - intros s1 s2 s3 [l1 [E1 F1]] [l2 [E2 F2]].
    exists (l1 ++ l2). split.
    + now rewrite E2, E1, app_assoc.
    + apply Forall_app; auto.
Qed.

#[global] Instance extends_quietly_preorder (P : request -> Prop) :
  PreOrder (extends_quietly P).
Proof.
  split.
  - intros s. split; reflexivity.
  - intros s1 s2 s3 [H12 C12] [H23 C23]. split.
    + transitivity s2; assumption.
    + congruence.
Qed.

Lemma calls_sends {A} (P : request -> Prop) (m : M A) : calls P m -> sends P m.
Proof. intros H p s. apply H. Qed.

Lemma calls_mono {A} (P Q : request -> Prop) (m : M A) :
  (forall r, P r -> Q r) -> calls P m -> calls Q m.
Proof.
  intros HPQ Hm p s. destruct (Hm p s) as [[l [E F]] C].
  split; [| exact C].
  exists l. split; [exact E |].
  eapply Forall_impl; [exact HPQ | exact F].
Qed.

Lemma calls_fetch_url (P : request -> Prop) (r : request) :
  P r -> calls P (fetch_url r).
Proof.
  intros Hr p s. split; [| reflexivity].
  exists [r]. simpl. split; [reflexivity | auto].
Qed.

Lemma sends_set_changed (P : request -> Prop) : sends P set_changed.
Proof.
  intros p s. exists []. simpl. split; [now rewrite app_nil_r | constructor].
Qed.

(** Breaks a goal [respects R m] down along the structure of [m]. *)
Ltac respects_step :=
  match goal with
  | |- respects _ (bind _ _) => apply respects_bind; [exact _ | | intros ?]
  | |- respects _ (ret _) => apply respects_ret; exact _
  | |- respects _ (lift _) => apply respects_lift; exact _
  | |- respects _ (fail_json _) => apply respects_fail_json; exact _
  | |- respects _ get_changed => apply respects_get_changed; exact _
  | |- respects _ (find_zone _ _) => apply respects_find_zone; exact _
  | |- respects (extends _) set_changed => apply sends_set_changed
  | |- respects _ (let _ := _ in _) => cbv zeta
  | |- respects _ (if ?b then _ else _) => destruct b
  | |- respects _ (match ?x with _ => _ end) => destruct x
  end.

Ltac respects_steps := unfold sends, calls; repeat respects_step.

(** ** Strings *)

Lemma append_assoc (a b c : string) : (a +++ b) +++ c = a +++ (b +++ c).
Proof. induction a as [| x a IH]; simpl; [reflexivity | now rewrite IH]. Qed.

Lemma append_nil_r (a : string) : a +++ "" = a.
Proof. induction a as [| x a IH]; simpl; [reflexivity | now rewrite IH]. Qed.

Lemma prefix_refl_app (a b : string) : String.prefix a (a +++ b) = true.
Proof.
  induction a as [| x a IH]; simpl.
  - now destruct b.
  - destruct (ascii_dec x x) as [_ | N]; [exact IH | now elim N].
Qed.

Lemma under_app (path rest key : string) (m : http_method) (d : option json) :
  under path (mkRequest m (api_endpoint +++ path +++ rest) key d).
Proof.
  unfold under. cbn [req_url].
  rewrite <- append_assoc. apply prefix_refl_app.
Qed.

Lemma prefix_refl (a : string) : String.prefix a a = true.
Proof.
  induction a as [| x a IH]; simpl; [reflexivity |].
  destruct (ascii_dec x x) as [_ | N]; [exact IH | now elim N].
Qed.

Lemma prefix_app_cancel (a b c : string) :
  String.prefix (a +++ b) (a +++ c) = String.prefix b c.
Proof.
  induction a as [| x a IH]; simpl; [reflexivity |].
  destruct (ascii_dec x x) as [_ | N]; [exact IH | now elim N].
Qed.

(** Proves that a request built by the code lies under a path prefix. *)
Ltac under_tac :=
  unfold under; cbn [req_url];
  repeat rewrite append_assoc;
  repeat rewrite prefix_app_cancel;
  first [apply prefix_refl | apply prefix_refl_app | reflexivity].

(** ** The facts module sends GET requests only *)

Module FactsTraces.
Import LivednsFacts.

Lemma facts_calls_api_call (P : request -> Prop) (self : GandiAPI) (api_call : string)
    (method : http_method) (payload : option json) (e404 : bool) :
  (forall d, P (mkRequest method (api_endpoint +++ api_call) (api_key self) d)) ->
  calls P (_gandi_api_call self api_call method payload e404).
Proof.
  intros HP. unfold _gandi_api_call.
  apply respects_bind; [exact _ | apply calls_fetch_url, HP |].
  intros resp. destruct (resp_body resp); respects_steps.
Qed.

Lemma facts_calls_get_zone_id (self : GandiAPI) (zone_name : string) :
  calls is_get (_get_zone_id self zone_name).
Proof.
  unfold _get_zone_id, get_zones.
  respects_steps; apply facts_calls_api_call; reflexivity.
Qed.

Lemma facts_calls_get_records (self : GandiAPI) (name type : option string)
    (zone_id : json) (domain : option string) :
  calls (record_request GET zone_id domain)
        (get_records self name type zone_id domain).
Proof.
  unfold get_records.
  apply respects_bind; [exact _ | |].
  - apply facts_calls_api_call. intros d. split; [reflexivity |].
    unfold records_url.
    destruct (str_truthy name); [destruct (str_truthy type) |]; under_tac.
  - intros [records st]. respects_steps.
Qed.

Lemma facts_calls_get_dns_records (self : GandiAPI) :
  calls is_get (get_dns_records self).
Proof.
  unfold get_dns_records.
  apply respects_bind; [exact _ | |].
  - destruct (zone self) as [z |]; [destruct (negb (z =? "")%string) |];
      try (apply respects_ret; exact _); apply facts_calls_get_zone_id.
  - intros zone_id. eapply calls_mono; [| apply facts_calls_get_records].
    intros r [Hm _]. exact Hm.
Qed.

Lemma sends_run_module {Unicode : StrLower} (m : module_t) : sends is_get (run_module m).
Proof.
  unfold run_module.
  destruct (_ && _); [apply respects_fail_json; exact _ |].
  apply respects_bind; [exact _ | apply calls_sends, facts_calls_get_dns_records |].
  intros results. respects_steps.
Qed.

(** [run_module] either fails or exits with [changed=False]. *)
Lemma run_module_unchanged {Unicode : StrLower} (m : module_t) (p : provider) (s : session) :
  (exists kwargs, fst (run_module m p s) = Ret (exit_json false kwargs))
  \/ (exists f, fst (run_module m p s) = Fail f).
Proof.
  unfold run_module.
  destruct (_ && _); [right; eexists; reflexivity |].
  unfold bind.
  destruct (get_dns_records (init m) p s) as [[results | f] s1];
    [| right; eexists; reflexivity].
  unfold lift.
  destruct (build_results (init m) results) as [built | f];
    [left | right]; eexists; reflexivity.
Qed.

End FactsTraces.

(** A run of the facts module that finds a record: one GET, the record
    reshaped, [changed=False]. *)
Lemma facts_run_example :
  LivednsFacts.main (facts_task (Some "WWW") (Some "A") None (Some "my.com")) false
                    (always (mkResponse 200 (Content (rrset "www" "A" 300 ["192.0.2.1"]))))
  = (exit_json false
       [("ansible_facts",
         JObj [("gandi_livedns_facts",
                JObj [("records",
                       JList [JObj [("name", JStr "www"); ("type", JStr "A");
                                    ("ttl", JNum 300);
                                    ("values", JList [JStr "192.0.2.1"]);
                                    ("domain", JStr "my.com")]])])])],
     [get_request "/domains/my.com/records/www/A"]).
Proof. vm_compute. reflexivity. Qed.

(** C9.  The facts module is read-only: whatever the arguments, the check
    mode and the provider's answers, every request [main] sends is a GET, and
    the run ends either in [exit_json(changed=False, ...)] or in a failure
    ([fail_json], rejected arguments, an uncaught exception); it never
    reports a change. *)
Theorem facts_read_only {Unicode : StrLower} (a : LivednsFacts.args) (check : bool) (p : provider) :
  Forall is_get (snd (LivednsFacts.main a check p))
  /\ ((exists kwargs, fst (LivednsFacts.main a check p) = exit_json false kwargs)
      \/ (exists f, fst (LivednsFacts.main a check p) = failed f)).
Proof.
  unfold LivednsFacts.main.
  destruct (LivednsFacts.AnsibleModule a check) as [m | f].
  - pose proof (FactsTraces.sends_run_module m p fresh) as [l [El Fl]].
    pose proof (FactsTraces.run_module_unchanged m p fresh) as Hexit.
    destruct (LivednsFacts.run_module m p fresh) as [[e | f] s1];
      simpl in *.
    + split; [rewrite El; exact Fl |].
      destruct Hexit as [[kw E] | [f E]]; [| discriminate].
      left. exists kw. congruence.
    + split; [rewrite El; exact Fl |].
      right. eexists; reflexivity.
  - simpl. split; [constructor | right; eexists; reflexivity].
Qed.

(** ** The management module: what each method sends *)

Lemma bind_Ret {A B} (m : M A) (k : A -> M B) (p : provider) (s s1 : session)
    (a : A) :
  m p s = (Ret a, s1) -> bind m k p s = k a p s1.
Proof. intros E. unfold bind. now rewrite E. Qed.

Lemma bind_Fail {A B} (m : M A) (k : A -> M B) (p : provider) (s s1 : session)
    (f : failure) :
  m p s = (Fail f, s1) -> bind m k p s = (Fail f, s1).
Proof. intros E. unfold bind. now rewrite E. Qed.

Module LivednsTraces.
Import Livedns.

Lemma calls_api_call (P : request -> Prop) (self : GandiAPI) (api_call : string)
    (method : http_method) (payload : option json) (e404 : bool) :
  (forall d, P (mkRequest method (api_endpoint +++ api_call) (api_key self) d)) ->
  calls P (_gandi_api_call self api_call method payload e404).
Proof.
  intros HP. unfold _gandi_api_call.
  apply respects_bind; [exact _ | apply calls_fetch_url, HP |].
  intros resp. destruct (resp_body resp); respects_steps.
Qed.

(** A call the code does not treat as an error returns the decoded body and
    the status, having sent exactly one request. *)
Lemma api_call_ok (self : GandiAPI) (api_call : string) (method : http_method)
    (payload : option json) (e404 : bool) (p : provider) (s : session) (j : json) :
  let req := mkRequest method (api_endpoint +++ api_call) (api_key self)
                       (request_data payload) in
  let resp := p (requests s) req in
  status resp < 400 \/ (status resp = 404 /\ e404 = false) ->
  decoded (resp_body resp) = Some j ->
  _gandi_api_call self api_call method payload e404 p s
  = (Ret (j, status resp), mkSession (requests s ++ [req]) (changed s)).
Proof.
  intros req resp Hst Hj.
  unfold _gandi_api_call, bind, fetch_url. fold req. fold resp.
  assert (E : (400 <=? status resp) && (negb (status resp =? 404) || e404) = false).
  { destruct Hst as [Hlt | [H404 He]].
    - apply andb_false_iff. left. apply Z.leb_gt. exact Hlt.
    - rewrite H404, He. reflexivity. }
  rewrite E.
  destruct (resp_body resp); simpl in Hj; try discriminate;
    injection Hj as <-; reflexivity.
Qed.

Lemma calls_get_zone_id (self : GandiAPI) (zone_name : string) :
  calls is_get (_get_zone_id self zone_name).
Proof.
  unfold _get_zone_id, get_zones.
  respects_steps; apply calls_api_call; reflexivity.
Qed.

Lemma calls_resolve_zone (self : GandiAPI) : calls is_get (resolve_zone self).
Proof.
  unfold resolve_zone.
  destruct (zone self) as [z |]; [destruct (negb (z =? "")%string) |];
    try (apply respects_ret; exact _); apply calls_get_zone_id.
Qed.

Lemma calls_get_records (self : GandiAPI) (name type : option string)
    (zone_id : json) (domain : option string) :
  calls (record_request GET zone_id domain)
        (get_records self name type zone_id domain).
Proof.
  unfold get_records.
  apply respects_bind; [exact _ | |].
  - apply calls_api_call. intros d. split; [reflexivity |].
    unfold records_url.
    destruct (str_truthy name); [destruct (str_truthy type) |]; under_tac.
  - intros [records st]. respects_steps.
Qed.

Lemma calls_create_record (self : GandiAPI) (name type : option string)
    (values : option (list string)) (ttl : option Z)
    (zone_id : json) (domain : option string) :
  calls (record_request POST zone_id domain)
        (create_record self name type values ttl zone_id domain).
Proof.
  unfold create_record.
  apply respects_bind; [exact _ | |].
  - apply calls_api_call. intros d. split; [reflexivity | under_tac].
  - intros r. respects_steps.
Qed.

Lemma calls_update_record (self : GandiAPI) (name type : option string)
    (values : option (list string)) (ttl : option Z)
    (zone_id : json) (domain : option string) :
  calls (record_request PUT zone_id domain)
        (update_record self name type values ttl zone_id domain).
Proof.
  unfold update_record.
  apply respects_bind; [exact _ | |].
  - apply calls_api_call. intros d. split; [reflexivity | under_tac].
  - intros r. respects_steps.
Qed.

Lemma calls_delete_record (self : GandiAPI) (name type : option string)
    (zone_id : json) (domain : option string) :
  calls (record_request DELETE zone_id domain)
        (delete_record self name type zone_id domain).
Proof.
  unfold delete_record.
  destruct (_ || _); [apply respects_fail_json; exact _ |].
  destruct (is_some _); [apply respects_fail_json; exact _ |].
  apply respects_bind; [exact _ | |].
  - apply calls_api_call. intros d. split; [reflexivity | under_tac].
  - intros r. respects_steps.
Qed.

(** The lookup both intents start with: zone resolution, then [get_records].
    It sends GET requests and leaves [changed] alone. *)
Lemma lookup_quiet (self : GandiAPI) (p : provider) (s s1 s2 : session)
    (zone_id : json) (records : option (list json)) :
  resolve_zone self p s = (Ret zone_id, s1) ->
  get_records self (record self) (type self) zone_id (domain self) p s1
  = (Ret records, s2) ->
  extends_quietly is_get s s2.
Proof.
  intros Hzone Hget.
  transitivity s1.
  - pose proof (calls_resolve_zone self p s) as H. now rewrite Hzone in H.
  - pose proof (calls_get_records self (record self) (type self) zone_id
                  (domain self) p s1) as H.
    rewrite Hget in H. simpl in H.
    destruct H as [[l [E F]] C]. split; [| exact C].
    exists l. split; [exact E |].
    eapply Forall_impl; [| exact F]. intros r [Hm _]. exact Hm.
Qed.

End LivednsTraces.

(** ** Creating a record *)

(** C5.  [create_record] sends one POST.  Whenever the call is not an error
    (status below 400, body decodable), it returns the record it built if
    and only if the provider's status is 201, and [None] for every other
    status. *)
Theorem create_record_iff_201 (self : Livedns.GandiAPI) (name type : option string)
    (values : option (list string)) (ttl : option Z)
    (zone_id : json) (domain : option string) (p : provider) (s : session) :
  let new_record := JObj [("rrset_name", of_opt_str name);
                          ("rrset_type", of_opt_str type);
                          ("rrset_values", of_opt_strs values);
                          ("rrset_ttl", of_opt_int ttl)] in
  let req := mkRequest POST (api_endpoint +++ scope_url zone_id domain +++ "/records")
                       (Livedns.api_key self) (Some new_record) in
  let resp := p (requests s) req in
  status resp < 400 ->
  decoded (resp_body resp) <> None ->
  exists r,
    Livedns.create_record self name type values ttl zone_id domain p s
    = (Ret r, mkSession (requests s ++ [req]) (changed s))
    /\ (r = new_record <-> status resp = 201)
    /\ (status resp <> 201 -> r = JNull).
Proof.
  intros new_record req resp Hst Hdec.
  destruct (decoded (resp_body resp)) as [j |] eqn:Hj; [| congruence].
  unfold Livedns.create_record. fold new_record.
  erewrite bind_Ret;
    [| apply LivednsTraces.api_call_ok with (j := j); [left; exact Hst | exact Hj]].
  cbn [snd request_data py_truthy new_record]. fold new_record. fold req. fold resp.
  destruct (status resp =? 201) eqn:E.
  - apply Z.eqb_eq in E. exists new_record. repeat split; auto. congruence.
  - apply Z.eqb_neq in E. exists JNull. repeat split; auto.
    + discriminate.
    + congruence.
Qed.

(** The provider answers 200 to the POST: no error, and no record returned. *)
Lemma create_record_iff_201_witness :
  status (mkResponse 200 NoContent) < 400
  /\ decoded (resp_body (mkResponse 200 NoContent)) <> None
  /\ exists r,
    Livedns.create_record
      (Livedns.init (Livedns.mkModule
         (Livedns.mkParams "dummyapitoken" (Some "test") Livedns.present
            (Some 10800) (Some "A") (Some ["127.0.0.1"]) None (Some "my.com")) false))
      (Some "test") (Some "A") (Some ["127.0.0.1"]) (Some 10800)
      JNull (Some "my.com") (always (mkResponse 200 NoContent)) fresh
    = (Ret r,
       mkSession
         [mkRequest POST "https://dns.api.gandi.net/api/v5/domains/my.com/records"
            "dummyapitoken"
            (Some (JObj [("rrset_name", JStr "test"); ("rrset_type", JStr "A");
                         ("rrset_values", JList [JStr "127.0.0.1"]);
                         ("rrset_ttl", JNum 10800)]))]
         false)
    /\ (r = JObj [("rrset_name", JStr "test"); ("rrset_type", JStr "A");
                  ("rrset_values", JList [JStr "127.0.0.1"]);
                  ("rrset_ttl", JNum 10800)]
        <-> 200 = 201)
    /\ (200 <> 201 -> r = JNull).
Proof.
  split; [simpl; lia |].
  split; [simpl; discriminate |].
  apply (create_record_iff_201
           (Livedns.init (Livedns.mkModule
              (Livedns.mkParams "dummyapitoken" (Some "test") Livedns.present
                 (Some 10800) (Some "A") (Some ["127.0.0.1"]) None (Some "my.com")) false))
           (Some "test") (Some "A") (Some ["127.0.0.1"]) (Some 10800)
           JNull (Some "my.com") (always (mkResponse 200 NoContent)) fresh).
  - simpl. lia.
  - simpl. discriminate.
Defined.

(** ** Comparing values as sets *)

Lemma existsb_eq_str (x : string) (vs : list string) :
  existsb (json_eq_str (JStr x)) vs = true <-> In x vs.
Proof.
  rewrite existsb_exists. split.
  - intros [y [Hin E]]. simpl in E. apply String.eqb_eq in E. now subst.
  - intros Hin. exists x. split; [exact Hin | apply String.eqb_refl].
Qed.

Lemma existsb_str_eq (x : string) (rvs : list string) :
  existsb (fun j => json_eq_str j x) (map JStr rvs) = true <-> In x rvs.
Proof.
  rewrite existsb_exists. split.
  - intros [j [Hin E]]. apply in_map_iff in Hin as [y [<- Hy]].
    simpl in E. apply String.eqb_eq in E. now subst.
  - intros Hin. exists (JStr x). split; [now apply in_map | apply String.eqb_refl].
Qed.

(** On lists of strings, the comparison [set(l) == set(vs)] of the code is
    equality of sets: order and repetitions do not count. *)
Lemma set_eq_spec (rvs dvs : list string) :
  set_eq (map JStr rvs) dvs = true <-> (forall x, In x rvs <-> In x dvs).
Proof.
  unfold set_eq. rewrite andb_true_iff, !forallb_forall. split.
  - intros [H1 H2] x. split; intros Hin.
    + apply existsb_eq_str, H1. now apply in_map.
    + apply existsb_str_eq, H2, Hin.
  - intros H. split.
    + intros j Hj. apply in_map_iff in Hj as [y [<- Hy]].
      apply existsb_eq_str, H, Hy.
    + intros x Hx. apply existsb_str_eq, H, Hx.
Qed.

Lemma py_set_strs (rvs : list string) :
  py_set (JList (map JStr rvs)) = Ret (map JStr rvs).
Proof.
  unfold py_set. simpl.
  assert (E : forallb hashable (map JStr rvs) = true).
  { induction rvs as [| x r IH]; simpl; auto. }
  now rewrite E.
Qed.

(** ** Nothing to do *)

(** C3.  Present intent, one record found.  If the desired ttl, when there is
    one, is the record's ttl, and the desired values, when there are any,
    are the record's values as sets (same elements, whatever the order and
    the repetitions), then [ensure_dns_record] returns the record it found,
    as found, with [changed=False], and all it has sent is the GET requests
    of the lookup. *)
Theorem ensure_unchanged_when_equal (self : Livedns.GandiAPI) (p : provider)
    (s s1 s2 : session) (zone_id : json) (kvs : list (string * json)) :
  changed s = false ->
  Livedns.resolve_zone self p s = (Ret zone_id, s1) ->
  Livedns.get_records self (Livedns.record self) (Livedns.type self)
                      zone_id (Livedns.domain self) p s1
  = (Ret (Some [JObj kvs]), s2) ->
  (forall t, Livedns.ttl self = Some t -> assoc "rrset_ttl" kvs = Some (JNum t)) ->
  (forall dvs, Livedns.values self = Some dvs ->
     exists rvs, assoc "rrset_values" kvs = Some (JList (map JStr rvs))
                 /\ forall x, In x rvs <-> In x dvs) ->
  Livedns.ensure_dns_record self p s = (Ret (JObj kvs, false), s2)
  /\ changed s2 = false
  /\ exists l, requests s2 = requests s ++ l /\ Forall is_get l.
Proof.
  intros Hc Hzone Hget Httl Hvalues.
  pose proof (LivednsTraces.lookup_quiet self p s s1 s2 zone_id _ Hzone Hget) as Q.
  destruct Q as [Hsent Hchanged].
  assert (Hs2 : changed s2 = false) by congruence.
  assert (Et : Livedns.ttl_differs self (JObj kvs) = Ret false).
  { unfold Livedns.ttl_differs. destruct (Livedns.ttl self) as [t |]; [| reflexivity].
    simpl. rewrite (Httl t eq_refl). simpl. now rewrite Z.eqb_refl. }
  assert (Ev : Livedns.values_differ self (JObj kvs) = Ret false).
  { unfold Livedns.values_differ.
    destruct (Livedns.values self) as [dvs |]; [| reflexivity].
    destruct (Hvalues dvs eq_refl) as [rvs [Ea Hset]].
    simpl. rewrite Ea, py_set_strs.
    apply set_eq_spec in Hset. now rewrite Hset. }
  split; [| split; assumption].
  unfold Livedns.ensure_dns_record.
  rewrite (bind_Ret _ _ _ _ _ _ Hzone).
  rewrite (bind_Ret _ _ _ _ _ _ Hget).
  unfold bind, lift, get_changed, ret. rewrite Et, Ev. simpl.
  now rewrite Hs2.
Qed.

(** Desired values [a, b] against existing values [b, a]: unchanged. *)
Lemma ensure_unchanged_when_equal_witness :
  let self := gandi false "www" Livedns.present 300 "A" (Some ["a"; "b"])
                    None (Some "my.com") in
  let p := always (mkResponse 200 (Content (rrset "www" "A" 300 ["b"; "a"]))) in
  let s2 := mkSession [get_request "/domains/my.com/records/www/A"] false in
  Livedns.ensure_dns_record self p fresh
  = (Ret (rrset "www" "A" 300 ["b"; "a"], false), s2)
  /\ changed s2 = false
  /\ exists l, requests s2 = requests fresh ++ l /\ Forall is_get l.
Proof.
  intros self p s2.
  apply (ensure_unchanged_when_equal self p fresh fresh s2 JNull
           [("rrset_name", JStr "www"); ("rrset_type", JStr "A");
            ("rrset_ttl", JNum 300); ("rrset_values", JList [JStr "b"; JStr "a"])]).
  - reflexivity.
  - reflexivity.
  - reflexivity.
  - intros t H. injection H as <-. reflexivity.
  - intros dvs H. injection H as <-. exists ["b"; "a"].
    split; [reflexivity |]. intros x. simpl. tauto.
Defined.

(** ** Deleting *)

(** [delete_record] checks its object before it builds the URL: with values
    supplied, or with no type or no record name, it fails and sends nothing. *)
Lemma delete_record_misuse (self : Livedns.GandiAPI) (name type : option string)
    (zone_id : json) (domain : option string) (p : provider) (s : session) :
  Livedns.values self <> None \/ Livedns.type self = None \/ Livedns.record self = None ->
  exists msg,
    Livedns.delete_record self name type zone_id domain p s
    = (Fail (fail_json_exit msg), s)
    /\ (msg = Livedns.msg_delete_needs_type_and_record
        \/ msg = Livedns.msg_delete_with_value).
Proof.
  intros H. unfold Livedns.delete_record.
  destruct (Livedns.type self) as [t |]; simpl;
    [| eexists; split; [reflexivity | now left]].
  destruct (Livedns.record self) as [r |]; simpl;
    [| eexists; split; [reflexivity | now left]].
  destruct (Livedns.values self) as [vs |]; simpl;
    [eexists; split; [reflexivity | now right] |].
  destruct H as [H | [H | H]]; congruence.
Qed.

(** C8.  Absent intent, nothing found: when the lookup returns [None] (the
    provider said 404) or an empty list, [main] exits with [changed=False]
    and everything it has sent is a GET. *)
Theorem delete_absent_record_is_noop {Unicode : StrLower} (a : Livedns.args) (check : bool)
    (m : Livedns.module_t) (p : provider) (s1 s2 : session) (zone_id : json)
    (records : option (list json)) :
  let self := Livedns.init m in
  Livedns.AnsibleModule a check = Ret m ->
  Livedns.param_state (Livedns.module_params m) = Livedns.absent ->
  str_truthy (Livedns.param_zone (Livedns.module_params m))
  || str_truthy (Livedns.param_domain (Livedns.module_params m)) = true ->
  Livedns.resolve_zone self p fresh = (Ret zone_id, s1) ->
  Livedns.get_records self (Livedns.record self) (Livedns.type self)
                      zone_id (Livedns.domain self) p s1
  = (Ret records, s2) ->
  Livedns.nonempty records = false ->
  Livedns.main a check p = (exit_json false [], requests s2)
  /\ Forall is_get (requests s2).
Proof.
  intros self Hargs Hstate Hscope Hzone Hget Hnone.
  destruct (LivednsTraces.lookup_quiet self p fresh s1 s2 zone_id _ Hzone Hget)
    as [[l [El Fl]] Hc].
  simpl in El, Hc.
  split; [| now rewrite El].
  unfold Livedns.main. rewrite Hargs. unfold Livedns.run_module.
  apply orb_true_iff in Hscope.
  assert (E : negb (str_truthy (Livedns.param_zone (Livedns.module_params m)))
              && negb (str_truthy (Livedns.param_domain (Livedns.module_params m)))
              = false).
  { destruct Hscope as [H | H]; rewrite H; simpl; auto using andb_false_r. }
  rewrite E. fold self.
  replace (Livedns.state self) with Livedns.absent by (symmetry; exact Hstate).
  assert (Hdel : Livedns.delete_dns_records self p fresh = (Ret false, s2)).
  { unfold Livedns.delete_dns_records.
    rewrite (bind_Ret _ _ _ _ _ _ Hzone).
    rewrite (bind_Ret _ _ _ _ _ _ Hget).
    rewrite Hnone. unfold bind, ret, get_changed. simpl. now rewrite Hc. }
  rewrite (bind_Ret _ _ _ _ _ _ Hdel). reflexivity.
Qed.

(** The delete example of the module's documentation, run when the record is
    already gone. *)
Lemma delete_absent_record_is_noop_witness :
  Livedns.main (task "mail" Livedns.absent "CNAME" None None (Some "my.com")) false
               (always (mkResponse 404 NoContent))
  = (exit_json false [], [get_request "/domains/my.com/records/mail/CNAME"])
  /\ Forall is_get [get_request "/domains/my.com/records/mail/CNAME"].
Proof.
  apply (delete_absent_record_is_noop
           (task "mail" Livedns.absent "CNAME" None None (Some "my.com")) false
           (Livedns.mkModule
              (Livedns.mkParams "dummyapitoken" (Some "mail") Livedns.absent
                 (Some 10800) (Some "CNAME") None None (Some "my.com")) false)
           (always (mkResponse 404 NoContent))
           fresh
           (mkSession [get_request "/domains/my.com/records/mail/CNAME"] false)
           JNull None);
    reflexivity.
Defined.

(** On any [GandiAPI] object, outside check mode, at least one record found:
    if values are set, or the type or the record name is [None],
    [delete_dns_records] fails with one of the two messages of
    [delete_record], and the requests sent are the GET requests of the
    lookup. *)
Lemma delete_dns_records_misuse (self : Livedns.GandiAPI) (p : provider)
    (s s1 s2 : session) (zone_id : json) (records : option (list json)) :
  Livedns.check_mode (Livedns.module self) = false ->
  Livedns.resolve_zone self p s = (Ret zone_id, s1) ->
  Livedns.get_records self (Livedns.record self) (Livedns.type self)
                      zone_id (Livedns.domain self) p s1
  = (Ret records, s2) ->
  Livedns.nonempty records = true ->
  Livedns.values self <> None \/ Livedns.type self = None \/ Livedns.record self = None ->
  exists msg,
    Livedns.delete_dns_records self p s
    = (Fail (fail_json_exit msg), mkSession (requests s2) true)
    /\ (msg = Livedns.msg_delete_needs_type_and_record
        \/ msg = Livedns.msg_delete_with_value)
    /\ exists l, requests s2 = requests s ++ l /\ Forall is_get l.
Proof.
  intros Hcheck Hzone Hget Hsome Hmisuse.
  destruct (LivednsTraces.lookup_quiet self p s s1 s2 zone_id _ Hzone Hget)
    as [Hsent _].
  destruct (delete_record_misuse self (Livedns.record self) (Livedns.type self)
              zone_id (Livedns.domain self) p (mkSession (requests s2) true) Hmisuse)
    as [msg [Hdel Hmsg]].
  exists msg. split; [| split; assumption].
  unfold Livedns.delete_dns_records.
  rewrite (bind_Ret _ _ _ _ _ _ Hzone).
  rewrite (bind_Ret _ _ _ _ _ _ Hget).
  rewrite Hsome, Hcheck. simpl negb. cbv iota.
  unfold bind at 1. unfold bind at 1. unfold set_changed at 1.
  now rewrite Hdel.
Qed.





(** ** Zone and domain supplied together *)

Lemma record_request_zone_scoped (m : http_method) (zone_id : json)
    (domain : option string) (r : request) :
  py_truthy zone_id = true ->
  record_request m zone_id domain r -> zone_scoped zone_id r.
Proof.
  intros Ht [_ Hu]. unfold zone_scoped, under in *.
  unfold scope_url in Hu. rewrite Ht in Hu.
  now rewrite append_assoc in Hu.
Qed.

Lemma copy_fields_keys (result : json) (ks : list string)
    (res : list (string * json)) :
  copy_fields result ks = Ret res ->
  forall k v, In (k, v) res -> In k ks.
Proof.
  revert res. induction ks as [| k0 rest IH]; simpl; intros res E k v Hin.
  - injection E as <-. destruct Hin.
  - destruct (py_get result _) as [x | f]; [| discriminate].
    destruct (copy_fields result rest) as [res' | f]; [| discriminate].
    injection E as <-.
    assert (Hcases : (k0, x) = (k, v) \/ In (k, v) res').
    { destruct x; simpl in Hin; tauto. }
    destruct Hcases as [E | Hin'].
    + injection E as <- _. now left.
    + right. eapply IH; [reflexivity | exact Hin'].
Qed.

Lemma assoc_app_fresh (k : string) (res l : list (string * json)) :
  (forall v, ~ In (k, v) res) -> assoc k (res ++ l) = assoc k l.
Proof.
  induction res as [| [k' v'] res IH]; simpl; intros Hfresh; [reflexivity |].
  destruct (k =? k')%string eqn:E.
  - apply String.eqb_eq in E. subst. exfalso. eapply Hfresh. left. reflexivity.
  - apply IH. intros v Hin. eapply Hfresh. right. exact Hin.
Qed.

(** C4, as amended.  When a zone is supplied (whatever the domain), and its
    name resolves to an identifier that Python takes as true, every request
    [ensure_dns_record] and [delete_dns_records] send after the resolution is
    on a path under [/zones/<id>/records], and the record [build_result]
    returns carries the field [zone], holding the zone name, and no field
    [domain]. *)
Theorem zone_wins_for_paths_and_label (self : Livedns.GandiAPI) (p : provider)
    (s s1 : session) (z : string) (zone_id : json) :
  Livedns.zone self = Some z ->
  z <> "" ->
  Livedns._get_zone_id self z p s = (Ret zone_id, s1) ->
  py_truthy zone_id = true ->
  extends (zone_scoped zone_id) s1 (snd (Livedns.ensure_dns_record self p s))
  /\ extends (zone_scoped zone_id) s1 (snd (Livedns.delete_dns_records self p s))
  /\ forall result fields,
       Livedns.build_result self result = Ret (JObj fields) ->
       assoc "zone" fields = Some (JStr z) /\ assoc "domain" fields = None.
Proof.
  intros Hz Hne Hid Ht.
  assert (Hres : Livedns.resolve_zone self p s = (Ret zone_id, s1)).
  { unfold Livedns.resolve_zone. rewrite Hz.
    apply String.eqb_neq in Hne. now rewrite Hne. }
  assert (Hleaf : forall m r, record_request m zone_id (Livedns.domain self) r ->
                              zone_scoped zone_id r).
  { intros m r. now apply record_request_zone_scoped. }
  split; [| split].
  - unfold Livedns.ensure_dns_record. cbv zeta.
    rewrite (bind_Ret _ _ _ _ _ _ Hres).
    match goal with
    | |- extends ?P ?s (snd (?m _ ?s)) => apply (fun H : sends P m => H p s)
    end.
    unfold sends.
    repeat first
      [ respects_step
      | apply calls_sends; eapply calls_mono;
        [ apply Hleaf
        | first [ apply LivednsTraces.calls_get_records
                | apply LivednsTraces.calls_create_record
                | apply LivednsTraces.calls_update_record ] ] ].
  - unfold Livedns.delete_dns_records.
    rewrite (bind_Ret _ _ _ _ _ _ Hres).
    match goal with
    | |- extends ?P ?s (snd (?m _ ?s)) => apply (fun H : sends P m => H p s)
    end.
    unfold sends.
    repeat first
      [ respects_step
      | apply calls_sends; eapply calls_mono;
        [ apply Hleaf
        | first [ apply LivednsTraces.calls_get_records
                | apply LivednsTraces.calls_delete_record ] ] ].
  - intros result fields Hb. unfold Livedns.build_result in Hb.
    assert (Hst : str_truthy (Livedns.zone self) = true).
    { rewrite Hz. simpl. apply String.eqb_neq in Hne. now rewrite Hne. }
    rewrite Hst, Hz in Hb. simpl of_opt_str in Hb.
    destruct result; try discriminate;
      (destruct (copy_fields _ _) as [res | f] eqn:E; [| discriminate];
       injection Hb as <-;
       pose proof (copy_fields_keys _ _ _ E) as Hkeys;
       split; rewrite assoc_app_fresh; try reflexivity;
       intros v Hin; apply Hkeys in Hin; simpl in Hin;
       repeat (destruct Hin as [Hin | Hin]; [discriminate |]); exact Hin).
Qed.

(** Zone [my.com] and domain [example.org] supplied together. *)
Lemma zone_wins_for_paths_and_label_witness :
  let self := gandi false "www" Livedns.present 10800 "A" (Some ["192.0.2.1"])
                    (Some "my.com") (Some "example.org") in
  let s1 := mkSession [get_request "/zones"] false in
  extends (zone_scoped (JStr "zone-1")) s1
          (snd (Livedns.ensure_dns_record self my_com_provider fresh))
  /\ extends (zone_scoped (JStr "zone-1")) s1
             (snd (Livedns.delete_dns_records self my_com_provider fresh))
  /\ forall result fields,
       Livedns.build_result self result = Ret (JObj fields) ->
       assoc "zone" fields = Some (JStr "my.com") /\ assoc "domain" fields = None.
Proof.
  intros self s1.
  apply (zone_wins_for_paths_and_label self my_com_provider fresh s1
           "my.com" (JStr "zone-1")).
  - reflexivity.
  - discriminate.
  - reflexivity.
  - reflexivity.
Defined.

(** C4 as stated does not hold: with zone [my.com] and domain [example.org]
    both supplied, the record returned is labelled with the zone and has no
    field [domain]. *)
Lemma both_scopes_label_is_zone :
  let fields := [("name", JStr "www"); ("type", JStr "A"); ("ttl", JNum 10800);
                 ("values", JList [JStr "192.0.2.1"]); ("zone", JStr "my.com")] in
  Livedns.main (task "www" Livedns.present "A" (Some ["192.0.2.1"])
                     (Some "my.com") (Some "example.org"))
               false my_com_provider
  = (exit_json false [("result", JObj [("record", JObj fields)])],
     [get_request "/zones"; get_request "/zones/zone-1/records/www/A"])
  /\ assoc "domain" fields = None
  /\ assoc "zone" fields = Some (JStr "my.com").
Proof. repeat split; vm_compute; reflexivity. Qed.

(** Why the identifier has to be taken as true: [get_records] and the others
    test [if zone_id:], so a zone whose [uuid] is the empty string sends the
    run to the domain-scoped paths. *)
Lemma empty_zone_id_falls_back_to_domain :
  snd (Livedns.main
         (task "www" Livedns.present "A" (Some ["192.0.2.1"])
               (Some "my.com") (Some "example.org"))
         true
         (route [(GET, api_endpoint +++ "/zones",
                  mkResponse 200
                    (Content (JList [JObj [("name", JStr "my.com"); ("uuid", JStr "")]])))]
                (mkResponse 404 NoContent)))
  = [get_request "/zones"; get_request "/domains/example.org/records/www/A"].
Proof. vm_compute. reflexivity. Qed.

(** ** The zone name is compared as given *)

Lemma find_zone_none (zs : list json) (z : string) (p : provider) (s : session) :
  (forall zo, In zo zs ->
     exists n, py_getitem zo "name" = Ret n /\ json_eq_str n z = false) ->
  find_zone zs z p s = (Fail (fail_json_exit ("No zone found with name " +++ z)), s).
Proof.
  induction zs as [| zo rest IH]; intros H; [reflexivity |].
  destruct (H zo (or_introl eq_refl)) as [n [En Hn]].
  cbn [find_zone]. unfold bind, lift. rewrite En, Hn.
  apply IH. intros zo' Hin. apply H. now right.
Qed.

(** C10.  [__init__] keeps the zone parameter as supplied, and the zone is
    looked up by exact comparison: when the provider lists its zones under
    lowercase names, one of them being the lowercase form of the supplied
    name, and the supplied name is not all lowercase, [main] sends the zone
    listing and then fails with "No zone found". *)
Theorem zone_name_is_case_sensitive {Unicode : StrLower} (a : Livedns.args) (check : bool)
    (m : Livedns.module_t) (p : provider) (z : string) (zs : list json) (st : Z) :
  let req := mkRequest GET (api_endpoint +++ "/zones")
                       (Livedns.param_api_key (Livedns.module_params m)) None in
  Livedns.AnsibleModule a check = Ret m ->
  Livedns.param_zone (Livedns.module_params m) = Some z ->
  lower z <> z ->
  p [] req = mkResponse st (Content (JList zs)) ->
  st < 400 ->
  (forall zo, In zo zs ->
     exists n, py_getitem zo "name" = Ret (JStr n) /\ lower n = n) ->
  (exists zo, In zo zs /\ py_getitem zo "name" = Ret (JStr (lower z))) ->
  Livedns.zone (Livedns.init m) = Some z
  /\ Livedns.main a check p
     = (failed (fail_json_exit ("No zone found with name " +++ z)), [req]).
Proof.
  intros req Hargs Hz Hcase Hresp Hst Hlower _.
  split; [exact Hz |].
  assert (Hne : (z =? "")%string = false).
  { apply String.eqb_neq. intros ->. apply Hcase.
    exact (lower_on_ascii "" eq_refl). }
  assert (Hcall : Livedns._gandi_api_call (Livedns.init m) "/zones" GET None true
                    p fresh
                  = (Ret (JList zs, st), mkSession [req] false)).
  { pose proof (LivednsTraces.api_call_ok (Livedns.init m) "/zones" GET None true
                  p fresh (JList zs)) as H.
    cbv zeta in H.
    cbn [requests fresh request_data Livedns.api_key Livedns.init app changed] in H.
    fold req in H. rewrite Hresp in H. cbn [status resp_body decoded] in H.
    apply H; [left; exact Hst | reflexivity]. }
  assert (Hid : Livedns._get_zone_id (Livedns.init m) z p fresh
                = (Fail (fail_json_exit ("No zone found with name " +++ z)),
                   mkSession [req] false)).
  { unfold Livedns._get_zone_id, Livedns.get_zones.
    rewrite (bind_Ret _ _ _ _ _ _ (bind_Ret _ _ _ _ _ _ Hcall)).
    unfold ret. cbn [fst].
    unfold bind at 1. unfold lift at 1. cbn [py_iter].
    apply find_zone_none.
    intros zo Hin. destruct (Hlower zo Hin) as [n [En Hn]].
    exists (JStr n). split; [exact En |].
    simpl. apply String.eqb_neq. intros ->. now apply Hcase. }
  assert (Hres : Livedns.resolve_zone (Livedns.init m) p fresh
                 = (Fail (fail_json_exit ("No zone found with name " +++ z)),
                    mkSession [req] false)).
  { unfold Livedns.resolve_zone. cbn [Livedns.zone Livedns.init].
    rewrite Hz, Hne. exact Hid. }
  unfold Livedns.main. rewrite Hargs. unfold Livedns.run_module.
  rewrite Hz. cbn [str_truthy]. rewrite Hne. cbn [negb andb].
  destruct (Livedns.state (Livedns.init m)).
  - unfold Livedns.ensure_dns_record. cbv zeta.
    rewrite (bind_Fail _ _ _ _ _ _ (bind_Fail _ _ _ _ _ _ Hres)). reflexivity.
  - unfold Livedns.delete_dns_records.
    rewrite (bind_Fail _ _ _ _ _ _ (bind_Fail _ _ _ _ _ _ Hres)). reflexivity.
Qed.

(** The zone [my.com] exists; the task names it [My.Com]. *)
Lemma zone_name_is_case_sensitive_witness :
  lower "My.Com" = "my.com"
  /\ Livedns.zone (gandi false "www" Livedns.present 10800 "A" (Some ["192.0.2.1"])
                         (Some "My.Com") None)
     = Some "My.Com"
  /\ Livedns.main (task "www" Livedns.present "A" (Some ["192.0.2.1"])
                        (Some "My.Com") None)
                  false my_com_provider
     = (failed (fail_json_exit "No zone found with name My.Com"),
        [get_request "/zones"]).
Proof.
  split; [reflexivity |].
  apply (zone_name_is_case_sensitive
           (task "www" Livedns.present "A" (Some ["192.0.2.1"]) (Some "My.Com") None)
           false
           (Livedns.mkModule
              (Livedns.mkParams "dummyapitoken" (Some "www") Livedns.present
                 (Some 10800) (Some "A") (Some ["192.0.2.1"]) (Some "My.Com") None)
              false)
           my_com_provider "My.Com"
           [JObj [("name", JStr "my.com"); ("uuid", JStr "zone-1")]] 200).
  - reflexivity.
  - reflexivity.
  - discriminate.
  - reflexivity.
  - lia.
  - intros zo [<- | []]. exists "my.com". split; reflexivity.
  - exists (JObj [("name", JStr "my.com"); ("uuid", JStr "zone-1")]).
    split; [now left | reflexivity].
Defined.

(** ** Errors of the provider *)


(** The table of the management module. *)
Lemma error_strings_table (st : Z) :
  Livedns.error_strings st
  = if st =? 400 then "Bad request"
    else if st =? 401 then "Permission denied"
    else if st =? 404 then "Resource not found"
    else "".
Proof. reflexivity. Qed.

(** In the management module a 404 on the lookup is "no record". *)
Lemma get_records_404 (self : Livedns.GandiAPI) (name type : option string)
    (zone_id : json) (domain : option string) (p : provider) (s : session) :
  let req := mkRequest GET (api_endpoint +++ records_url name type zone_id domain)
                       (Livedns.api_key self) None in
  status (p (requests s) req) = 404 ->
  decoded (resp_body (p (requests s) req)) <> None ->
  Livedns.get_records self name type zone_id domain p s
  = (Ret None, mkSession (requests s ++ [req]) (changed s)).
Proof.
  intros req H404 Hdec.
  destruct (decoded (resp_body (p (requests s) req))) as [j |] eqn:Hj; [| congruence].
  unfold Livedns.get_records. cbv zeta.
  erewrite bind_Ret;
    [| apply LivednsTraces.api_call_ok with (j := j);
       [right; split; [exact H404 | reflexivity] | exact Hj]].
  cbn [request_data]. fold req. now rewrite H404.
Qed.

(** In the facts module the same 404 ends the run. *)
Lemma facts_get_records_404 (self : LivednsFacts.GandiAPI) (name type : option string)
    (zone_id : json) (domain : option string) (p : provider) (s : session) :
  let url := records_url name type zone_id domain in
  let req := mkRequest GET (api_endpoint +++ url) (LivednsFacts.api_key self) None in
  status (p (requests s) req) = 404 ->
  exists msg tail,
    LivednsFacts.get_records self name type zone_id domain p s
    = (Fail (fail_json_exit msg), mkSession (requests s ++ [req]) (changed s))
    /\ msg = api_error "Resource not found" 404 GET url +++ tail.
Proof.
  intros url req H404.
  unfold LivednsFacts.get_records. cbv zeta. fold url.
  unfold bind at 1. unfold LivednsFacts._gandi_api_call, bind, fetch_url.
  cbn [request_data]. fold req. rewrite H404.
  cbn [Z.leb Z.compare Pos.compare Pos.compare_cont LivednsFacts.error_strings Z.eqb Pos.eqb].
  destruct (resp_body (p (requests s) req)) as [| j | e c].
  - eexists. exists "". split; [reflexivity | now rewrite append_nil_r].
  - eexists. exists "". split; [reflexivity | now rewrite append_nil_r].
  - eexists. exists (parse_error e c). split; reflexivity.
Qed.

(** C2.  The facts module looks up [test A] in the domain [my.com]; the
    provider answers 404.  [main] fails with an API error instead of
    reporting no record, while [get_records] of the management module, given
    the same answer, returns [None]. *)
Theorem facts_lookup_404_is_an_error :
  LivednsFacts.main (facts_task (Some "test") (Some "A") None (Some "my.com")) false
                    (always (mkResponse 404 NoContent))
  = (failed (fail_json_exit
       "API error Resource not found; Status: 404; Method: GET: Call: /domains/my.com/records/test/A"),
     [get_request "/domains/my.com/records/test/A"])
  /\ Livedns.get_records
       (gandi false "test" Livedns.present 10800 "A" (Some ["127.0.0.1"])
              None (Some "my.com"))
       (Some "test") (Some "A") JNull (Some "my.com")
       (always (mkResponse 404 NoContent)) fresh
     = (Ret None, mkSession [get_request "/domains/my.com/records/test/A"] false).
Proof. split; vm_compute; reflexivity. Qed.

(** C6.  The table of the facts module has no entry for 400: the provider
    answers 400 and the message of the facts module carries an empty label,
    where the management module says "Bad request". *)
Theorem facts_400_has_no_label :
  LivednsFacts.error_strings 400 = ""
  /\ Livedns.error_strings 400 = "Bad request"
  /\ LivednsFacts.main (facts_task (Some "test") (Some "A") None (Some "my.com")) false
                       (always (mkResponse 400 NoContent))
     = (failed (fail_json_exit
          "API error ; Status: 400; Method: GET: Call: /domains/my.com/records/test/A"),
        [get_request "/domains/my.com/records/test/A"]).
Proof. repeat split; vm_compute; reflexivity. Qed.

(** ** Check mode *)

(** The record [ensure_dns_record] makes up in check mode has the keys
    [type], [name], [values] and [ttl]; [build_result] reads [rrset_type],
    [rrset_name], [rrset_values] and [rrset_ttl], finds none of them, and
    returns the scope label alone. *)
Lemma build_result_desired_record (self : Livedns.GandiAPI) :
  Livedns.build_result self (Livedns.desired_record self)
  = Ret (JObj (if str_truthy (Livedns.zone self)
               then [("zone", of_opt_str (Livedns.zone self))]
               else [("domain", of_opt_str (Livedns.domain self))])).
Proof. reflexivity. Qed.

(** In check mode [ensure_dns_record] sends GET requests only. *)
Lemma check_mode_sends_gets (self : Livedns.GandiAPI) :
  Livedns.check_mode (Livedns.module self) = true ->
  sends is_get (Livedns.ensure_dns_record self).
Proof.
  intros Hcheck. unfold Livedns.ensure_dns_record, sends.
  repeat (first
    [ respects_step
    | apply calls_sends, LivednsTraces.calls_resolve_zone
    | apply calls_sends; eapply calls_mono;
      [| apply LivednsTraces.calls_get_records]; intros r [Hm _]; exact Hm ];
    try discriminate).
Qed.

(** C1.  Check mode, [test A] wanted in the domain [my.com] with value
    [127.0.0.1].  Whether the record is missing (404) or there with another
    ttl, [main] reports [changed=True] and has sent one GET, but the record
    it returns holds the field [domain] and nothing else: no name, type, ttl
    or values. *)
Theorem check_mode_record_has_no_fields :
  Livedns.main (task "test" Livedns.present "A" (Some ["127.0.0.1"]) None (Some "my.com"))
               true (always (mkResponse 404 NoContent))
  = (exit_json true [("result", JObj [("record", JObj [("domain", JStr "my.com")])])],
     [get_request "/domains/my.com/records/test/A"])
  /\ Livedns.main (task "test" Livedns.present "A" (Some ["127.0.0.1"]) None (Some "my.com"))
                  true
                  (always (mkResponse 200 (Content (rrset "test" "A" 300 ["127.0.0.1"]))))
     = (exit_json true [("result", JObj [("record", JObj [("domain", JStr "my.com")])])],
        [get_request "/domains/my.com/records/test/A"])
  /\ fst (Livedns.ensure_dns_record
            (gandi true "test" Livedns.present 10800 "A" (Some ["127.0.0.1"])
                   None (Some "my.com"))
            (always (mkResponse 404 NoContent)) fresh)
     = Ret (JObj [("type", JStr "A"); ("name", JStr "test");
                  ("values", JList [JStr "127.0.0.1"]); ("ttl", JNum 10800)],
            true).
Proof. repeat split; vm_compute; reflexivity. Qed.

(** * Further properties of the code *)

(** ** The transport client *)


(** X2.  A content that is not empty and cannot be decoded ends the run
    whatever the status, a tolerated 404 included.  The request has been
    sent, and the message is the API error text when the status is an error
    the caller does not tolerate, followed in every case by "; Failed to
    parse API response with error", the decoder's error, and the content as
    Python writes [bytes]. *)
Theorem undecodable_body_fails (self : Livedns.GandiAPI) (api_call : string)
    (method : http_method) (payload : option json) (e404 : bool)
    (p : provider) (s : session) (e c : string) :
  let req := mkRequest method (api_endpoint +++ api_call) (Livedns.api_key self)
                       (request_data payload) in
  let st := status (p (requests s) req) in
  resp_body (p (requests s) req) = Undecodable e c ->
  c <> "" ->
  Livedns._gandi_api_call self api_call method payload e404 p s
  = (Fail (fail_json_exit
             ((if (400 <=? st) && (negb (st =? 404) || e404)
               then api_error (Livedns.error_strings st) st method api_call
               else "")
              +++ "; Failed to parse API response with error " +++ e
              +++ ": " +++ bytes_repr c)),
     mkSession (requests s ++ [req]) (changed s)).
Proof.
  intros req st Hbody _.
  unfold Livedns._gandi_api_call, bind, fetch_url. fold req. rewrite Hbody. fold st.
  destruct ((400 <=? st) && (negb (st =? 404) || e404)); reflexivity.
Qed.

(** A 404 on a tolerant lookup, with a page of HTML for a body. *)
Lemma undecodable_body_fails_witness :
  Livedns._gandi_api_call
    (gandi false "www" Livedns.present 10800 "A" (Some ["192.0.2.1"])
           None (Some "my.com"))
    "/domains/my.com/records/www/A" GET None false
    (always (mkResponse 404
               (Undecodable "Expecting value: line 1 column 1 (char 0)" "<html>")))
    fresh
  = (Fail (fail_json_exit
       "; Failed to parse API response with error Expecting value: line 1 column 1 (char 0): b'<html>'"),
     mkSession [get_request "/domains/my.com/records/www/A"] false).
Proof.
  refine (undecodable_body_fails
           (gandi false "www" Livedns.present 10800 "A" (Some ["192.0.2.1"])
                  None (Some "my.com"))
           "/domains/my.com/records/www/A" GET None false
           (always (mkResponse 404
                      (Undecodable "Expecting value: line 1 column 1 (char 0)" "<html>")))
           fresh
           "Expecting value: line 1 column 1 (char 0)" "<html>" _ _).
  - reflexivity.
  - discriminate.
Defined.

(** ** The scope check of [main] *)

(** X3.  Management module: arguments the framework accepts, with neither a
    zone nor a domain (missing or empty), end in [fail_json] before any
    request is sent. *)
Theorem no_scope_fails_without_request {Unicode : StrLower} (a : Livedns.args) (check : bool)
    (m : Livedns.module_t) (p : provider) :
  Livedns.AnsibleModule a check = Ret m ->
  str_truthy (Livedns.arg_zone a) = false ->
  str_truthy (Livedns.arg_domain a) = false ->
  Livedns.main a check p = (failed (fail_json_exit msg_no_scope), []).
Proof.
  intros Hargs Hz Hd. unfold Livedns.main. rewrite Hargs.
  unfold Livedns.AnsibleModule in Hargs.
  destruct (Livedns.arg_api_key a); [| discriminate].
  destruct (negb (valid_choice (Livedns.arg_type a))); [discriminate |].
  destruct (match _ with Livedns.present => _ | Livedns.absent => _ end);
    [| discriminate].
  injection Hargs as <-.
  unfold Livedns.run_module. cbn [Livedns.module_params Livedns.param_zone
                                  Livedns.param_domain].
  now rewrite Hz, Hd.
Qed.

Lemma no_scope_fails_without_request_witness :
  Livedns.main (task "www" Livedns.present "A" (Some ["192.0.2.1"]) None (Some ""))
               false my_com_provider
  = (failed (fail_json_exit msg_no_scope), []).
Proof.
  apply (no_scope_fails_without_request
           (task "www" Livedns.present "A" (Some ["192.0.2.1"]) None (Some ""))
           false
           (Livedns.mkModule
              (Livedns.mkParams "dummyapitoken" (Some "www") Livedns.present
                 (Some 10800) (Some "A") (Some ["192.0.2.1"]) None (Some ""))
              false)
           my_com_provider); reflexivity.
Defined.

(** X4.  Facts module: the same check, the same message, no request. *)
Theorem facts_no_scope_fails_without_request {Unicode : StrLower} (a : LivednsFacts.args) (check : bool)
    (m : LivednsFacts.module_t) (p : provider) :
  LivednsFacts.AnsibleModule a check = Ret m ->
  str_truthy (LivednsFacts.arg_zone a) = false ->
  str_truthy (LivednsFacts.arg_domain a) = false ->
  LivednsFacts.main a check p = (failed (fail_json_exit msg_no_scope), []).
Proof.
  intros Hargs Hz Hd. unfold LivednsFacts.main. rewrite Hargs.
  unfold LivednsFacts.AnsibleModule in Hargs.
  destruct (LivednsFacts.arg_api_key a); [| discriminate].
  destruct (negb (valid_choice (LivednsFacts.arg_type a))); [discriminate |].
  injection Hargs as <-.
  unfold LivednsFacts.run_module.
  cbn [LivednsFacts.module_params LivednsFacts.param_zone LivednsFacts.param_domain].
  now rewrite Hz, Hd.
Qed.

Lemma facts_no_scope_fails_without_request_witness :
  LivednsFacts.main (facts_task (Some "www") None None None) false my_com_provider
  = (failed (fail_json_exit msg_no_scope), []).
Proof.
  apply (facts_no_scope_fails_without_request
           (facts_task (Some "www") None None None) false
           (LivednsFacts.mkModule
              (LivednsFacts.mkParams "dummyapitoken" (Some "www") None None None)
              false)
           my_com_provider); reflexivity.
Defined.

(** ** The zone resolver *)

Lemma find_zone_first (before after : list json) (zo u : json) (z : string)
    (p : provider) (s : session) :
  (forall x, In x before ->
     exists n, py_getitem x "name" = Ret n /\ json_eq_str n z = false) ->
  py_getitem zo "name" = Ret (JStr z) ->
  py_getitem zo "uuid" = Ret u ->
  find_zone (before ++ zo :: after) z p s = (Ret u, s).
Proof.
  intros Hbefore Hname Huuid.
  induction before as [| x rest IH]; cbn [app find_zone]; unfold bind, lift.
  - rewrite Hname. cbn [json_eq_str]. rewrite String.eqb_refl, Huuid. reflexivity.
  - destruct (Hbefore x (or_introl eq_refl)) as [n [En Hn]].
    rewrite En, Hn. apply IH. intros y Hy. apply Hbefore. now right.
Qed.

(** X5.  [_get_zone_id] sends one GET on [/zones] and returns the [uuid] of
    the first zone of the list whose name is the one asked for; what comes
    after that zone in the list is not looked at. *)
Theorem get_zone_id_first_match (self : Livedns.GandiAPI) (z : string)
    (p : provider) (s : session) (st : Z) (before after : list json)
    (zo u : json) :
  let req := mkRequest GET (api_endpoint +++ "/zones") (Livedns.api_key self) None in
  p (requests s) req = mkResponse st (Content (JList (before ++ zo :: after))) ->
  st < 400 ->
  (forall x, In x before ->
     exists n, py_getitem x "name" = Ret n /\ json_eq_str n z = false) ->
  py_getitem zo "name" = Ret (JStr z) ->
  py_getitem zo "uuid" = Ret u ->
  Livedns._get_zone_id self z p s
  = (Ret u, mkSession (requests s ++ [req]) (changed s)).
Proof.
  intros req Hresp Hst Hbefore Hname Huuid.
  assert (Hcall : Livedns._gandi_api_call self "/zones" GET None true p s
                  = (Ret (JList (before ++ zo :: after), st),
                     mkSession (requests s ++ [req]) (changed s))).
  { pose proof (LivednsTraces.api_call_ok self "/zones" GET None true p s
                  (JList (before ++ zo :: after))) as H.
    cbv zeta in H. cbn [request_data] in H. fold req in H.
    rewrite Hresp in H. cbn [status resp_body decoded] in H.
    apply H; [left; exact Hst | reflexivity]. }
  unfold Livedns._get_zone_id, Livedns.get_zones.
  rewrite (bind_Ret _ _ _ _ _ _ (bind_Ret _ _ _ _ _ _ Hcall)).
  unfold ret. cbn [fst]. unfold bind at 1. unfold lift at 1. cbn [py_iter].
  now apply find_zone_first.
Qed.

(** Two zones are called [my.com]; the identifier of the first is returned,
    and the entry after them, which is not even a zone, does no harm. *)
Lemma get_zone_id_first_match_witness :
  let self := gandi false "www" Livedns.present 10800 "A" (Some ["192.0.2.1"])
                    (Some "my.com") None in
  let zones := [JObj [("name", JStr "other.org"); ("uuid", JStr "zone-0")];
                JObj [("name", JStr "my.com"); ("uuid", JStr "zone-1")];
                JObj [("name", JStr "my.com"); ("uuid", JStr "zone-2")];
                JNum 7] in
  Livedns._get_zone_id self "my.com"
    (always (mkResponse 200 (Content (JList zones)))) fresh
  = (Ret (JStr "zone-1"),
     mkSession (requests fresh ++ [get_request "/zones"]) (changed fresh)).
Proof.
  intros self zones.
  apply (get_zone_id_first_match self "my.com"
           (always (mkResponse 200 (Content (JList zones)))) fresh 200
           [JObj [("name", JStr "other.org"); ("uuid", JStr "zone-0")]]
           [JObj [("name", JStr "my.com"); ("uuid", JStr "zone-2")]; JNum 7]
           (JObj [("name", JStr "my.com"); ("uuid", JStr "zone-1")])
           (JStr "zone-1")).
  - reflexivity.
  - lia.
  - intros x [<- | []]. exists (JStr "other.org"). split; reflexivity.
  - reflexivity.
  - reflexivity.
Defined.

(** ** The record lookup *)

(** X6.  Looking up by name, [get_records] sends one GET and, on an answer
    that is neither an error nor a 404, returns a list: the body itself when
    it is a list, and otherwise the one-element list holding the body, an
    empty body counting as [None]. *)
Theorem get_records_wraps_single_object (self : Livedns.GandiAPI)
    (name type : option string) (zone_id : json) (domain : option string)
    (p : provider) (s : session) (j : json) :
  let req := mkRequest GET (api_endpoint +++ records_url name type zone_id domain)
                       (Livedns.api_key self) None in
  status (p (requests s) req) < 400 ->
  decoded (resp_body (p (requests s) req)) = Some j ->
  str_truthy name = true ->
  Livedns.get_records self name type zone_id domain p s
  = (Ret (Some (match j with JList l => l | _ => [j] end)),
     mkSession (requests s ++ [req]) (changed s)).
Proof.
  intros req Hst Hj Hname.
  unfold Livedns.get_records. cbv zeta.
  erewrite bind_Ret;
    [| apply LivednsTraces.api_call_ok with (j := j); [left; exact Hst | exact Hj]].
  cbn [request_data]. fold req.
  assert (E : (status (p (requests s) req) =? 404) = false)
    by (apply Z.eqb_neq; lia).
  rewrite E, Hname. cbn [negb andb]. destruct j; reflexivity.
Qed.

(** The provider answers 200 with an empty body: the list holds [None]. *)
Lemma get_records_wraps_single_object_witness :
  Livedns.get_records
    (gandi false "www" Livedns.present 10800 "A" (Some ["192.0.2.1"])
           None (Some "my.com"))
    (Some "www") (Some "A") JNull (Some "my.com")
    (always (mkResponse 200 NoContent)) fresh
  = (Ret (Some [JNull]),
     mkSession (requests fresh ++ [get_request "/domains/my.com/records/www/A"])
               (changed fresh)).
Proof.
  apply (get_records_wraps_single_object
           (gandi false "www" Livedns.present 10800 "A" (Some ["192.0.2.1"])
                  None (Some "my.com"))
           (Some "www") (Some "A") JNull (Some "my.com")
           (always (mkResponse 200 NoContent)) fresh JNull).
  - simpl. lia.
  - reflexivity.
  - reflexivity.
Defined.

Lemma filter_type_spec (l : list json) (t : string) :
  (forall r, In r l -> exists v, py_getitem r "rrset_type" = Ret v) ->
  filter_type l t = Ret (filter (has_type t) l).
Proof.
  induction l as [| r rest IH]; intros H; [reflexivity |].
  destruct (H r (or_introl eq_refl)) as [v Ev].
  cbn [filter_type filter]. unfold has_type at 1. rewrite Ev.
  rewrite IH by (intros x Hx; apply H; now right).
  reflexivity.
Qed.

(** X7.  With a type and no record name, [get_records] asks for all the
    records of the scope (the type is not part of the URL) and keeps, in the
    provider's order, those whose [rrset_type] is the type asked for. *)
Theorem get_records_filters_by_type (self : Livedns.GandiAPI)
    (name : option string) (t : string) (zone_id : json) (domain : option string)
    (p : provider) (s : session) (st : Z) (l : list json) :
  let req := mkRequest GET (api_endpoint +++ scope_url zone_id domain +++ "/records")
                       (Livedns.api_key self) None in
  str_truthy name = false ->
  t <> "" ->
  p (requests s) req = mkResponse st (Content (JList l)) ->
  st < 400 ->
  (forall r, In r l -> exists v, py_getitem r "rrset_type" = Ret v) ->
  Livedns.get_records self name (Some t) zone_id domain p s
  = (Ret (Some (filter (has_type t) l)),
     mkSession (requests s ++ [req]) (changed s)).
Proof.
  intros req Hname Ht Hresp Hst Htypes.
  assert (Hurl : records_url name (Some t) zone_id domain
                 = scope_url zone_id domain +++ "/records").
  { unfold records_url. now rewrite Hname. }
  unfold Livedns.get_records. cbv zeta. rewrite Hurl.
  erewrite bind_Ret.
  2:{ apply LivednsTraces.api_call_ok with (j := JList l);
        cbn [request_data]; fold req; rewrite Hresp;
        [left; exact Hst | reflexivity]. }
  cbn [request_data]. fold req. rewrite Hresp. cbn [status].
  assert (E : (st =? 404) = false) by (apply Z.eqb_neq; lia).
  assert (Et : str_truthy (Some t) = true).
  { simpl. apply String.eqb_neq in Ht. now rewrite Ht. }
  rewrite E, Hname, Et. cbn [negb andb fmt_opt].
  unfold bind, lift, ret. now rewrite (filter_type_spec l t Htypes).
Qed.

Lemma get_records_filters_by_type_witness :
  Livedns.get_records
    (gandi false "" Livedns.absent 10800 "MX" None None (Some "my.com"))
    (Some "") (Some "MX") JNull (Some "my.com")
    (always (mkResponse 200
       (Content (JList [rrset "@" "MX" 300 ["10 mail"]; rrset "www" "A" 300 ["192.0.2.1"];
                        rrset "lists" "MX" 300 ["10 mail"]]))))
    fresh
  = (Ret (Some (filter (has_type "MX")
                  [rrset "@" "MX" 300 ["10 mail"]; rrset "www" "A" 300 ["192.0.2.1"];
                   rrset "lists" "MX" 300 ["10 mail"]])),
     mkSession (requests fresh ++ [get_request "/domains/my.com/records"])
               (changed fresh)).
Proof.
  apply (get_records_filters_by_type
           (gandi false "" Livedns.absent 10800 "MX" None None (Some "my.com"))
           (Some "") "MX" JNull (Some "my.com")
           (always (mkResponse 200
              (Content (JList [rrset "@" "MX" 300 ["10 mail"];
                               rrset "www" "A" 300 ["192.0.2.1"];
                               rrset "lists" "MX" 300 ["10 mail"]]))))
           fresh 200
           [rrset "@" "MX" 300 ["10 mail"]; rrset "www" "A" 300 ["192.0.2.1"];
            rrset "lists" "MX" 300 ["10 mail"]]).
  - reflexivity.
  - discriminate.
  - reflexivity.
  - lia.
  - intros r [<- | [<- | [<- | []]]]; eexists; reflexivity.
Defined.

(** ** The result formatter *)

Lemma assoc_fresh (k : string) (res : list (string * json)) :
  (forall v, ~ In (k, v) res) -> assoc k res = None.
Proof.
  intros H. rewrite <- (app_nil_r res). now rewrite assoc_app_fresh.
Qed.

Lemma assoc_app (k : string) (res l : list (string * json)) :
  assoc k (res ++ l)
  = match assoc k res with Some v => Some v | None => assoc k l end.
Proof.
  induction res as [| [k' v'] res IH]; simpl; [reflexivity |].
  destruct (k =? k')%string; [reflexivity | exact IH].
Qed.

Lemma assoc_in (k : string) (v : json) (res : list (string * json)) :
  assoc k res = Some v -> In (k, v) res.
Proof.
  induction res as [| [k' v'] res IH]; simpl; [discriminate |].
  destruct (k =? k')%string eqn:E.
  - apply String.eqb_eq in E. intros H. injection H as ->. subst. now left.
  - intros H. right. now apply IH.
Qed.

(** On a dictionary the loop of [build_result] never fails, and what it
    builds binds each key to the value of the key with the [rrset_] prefix,
    unless that value is missing or [None]. *)
Lemma copy_fields_dict (kvs : list (string * json)) (ks : list string) :
  NoDup ks ->
  exists res,
    copy_fields (JObj kvs) ks = Ret res
    /\ forall k, In k ks -> assoc k res = kept (assoc ("rrset_" +++ k) kvs).
Proof.
  induction ks as [| k0 rest IH]; intros Hnd.
  - exists []. split; [reflexivity | intros k []].
  - inversion Hnd as [| ? ? Hfresh Hrest]; subst.
    destruct (IH Hrest) as [res [Eres Hres]].
    cbn [copy_fields py_get]. rewrite Eres.
    assert (Hk0 : assoc k0 res = None).
    { apply assoc_fresh. intros v Hin.
      apply Hfresh. eapply copy_fields_keys; [exact Eres | exact Hin]. }
    destruct (assoc ("rrset_" +++ k0) kvs) as [x |] eqn:Ea.
    + exists (match x with JNull => res | _ => (k0, x) :: res end).
      split; [reflexivity |].
      intros k [<- | Hin].
      * rewrite Ea. destruct x; cbn [kept assoc]; rewrite ?String.eqb_refl; auto.
      * assert (Hne : (k =? k0)%string = false).
        { apply String.eqb_neq. intros ->. now apply Hfresh. }
        rewrite <- (Hres k Hin).
        destruct x; cbn [assoc]; rewrite ?Hne; reflexivity.
    + exists res. split; [reflexivity |].
      intros k [<- | Hin]; [rewrite Ea; exact Hk0 | now apply Hres].
Qed.

(** X8.  On a dictionary, [build_result] returns a dictionary in which each
    of [name], [type], [ttl], [values] is bound to the value of [rrset_name],
    [rrset_type], [rrset_ttl], [rrset_values] when the provider gave one that
    is not [None] and is absent otherwise, in which the scope label is
    [zone] when a zone was supplied and [domain] when not, never both, and
    which has no other key. *)
Theorem build_result_fields (self : Livedns.GandiAPI) (kvs : list (string * json)) :
  exists fields,
    Livedns.build_result self (JObj kvs) = Ret (JObj fields)
    /\ (forall k, In k ["name"; "type"; "ttl"; "values"] ->
          assoc k fields = kept (assoc ("rrset_" +++ k) kvs))
    /\ (str_truthy (Livedns.zone self) = true ->
          assoc "zone" fields = Some (of_opt_str (Livedns.zone self))
          /\ assoc "domain" fields = None)
    /\ (str_truthy (Livedns.zone self) = false ->
          assoc "domain" fields = Some (of_opt_str (Livedns.domain self))
          /\ assoc "zone" fields = None)
    /\ (forall k v, In (k, v) fields ->
          In k ["name"; "type"; "ttl"; "values"; "zone"; "domain"]).
Proof.
  assert (Hnd : NoDup ["name"; "type"; "ttl"; "values"]).
  { repeat constructor; simpl; intuition discriminate. }
  destruct (copy_fields_dict kvs _ Hnd) as [res [Eres Hres]].
  pose proof (copy_fields_keys _ _ _ Eres) as Hkeys.
  assert (Hzone : assoc "zone" res = None).
  { apply assoc_fresh. intros v Hin. apply Hkeys in Hin. simpl in Hin.
    intuition discriminate. }
  assert (Hdomain : assoc "domain" res = None).
  { apply assoc_fresh. intros v Hin. apply Hkeys in Hin. simpl in Hin.
    intuition discriminate. }
  eexists. unfold Livedns.build_result. rewrite Eres.
  split; [reflexivity |].
  split; [| split; [| split]].
  - intros k Hk. rewrite assoc_app, (Hres k Hk).
    destruct (kept (assoc ("rrset_" +++ k) kvs)); [reflexivity |].
    simpl in Hk.
    destruct Hk as [<- | [<- | [<- | [<- | []]]]];
      destruct (str_truthy (Livedns.zone self)); reflexivity.
  - intros Ht. rewrite Ht, !assoc_app, Hzone, Hdomain. split; reflexivity.
  - intros Hf. rewrite Hf, !assoc_app, Hzone, Hdomain. split; reflexivity.
  - intros k v Hin. apply in_app_or in Hin as [Hin | Hin].
    + apply Hkeys in Hin. simpl in *. tauto.
    + destruct (str_truthy (Livedns.zone self));
        destruct Hin as [E | []]; injection E as <- _; simpl; tauto.
Qed.

(** On dictionaries the loop of the facts module does to each record what
    [build_result] of the management module does to its record. *)
Lemma build_each_agrees (facts : LivednsFacts.GandiAPI) (self : Livedns.GandiAPI)
    (l : list json) :
  LivednsFacts.zone facts = Livedns.zone self ->
  LivednsFacts.domain facts = Livedns.domain self ->
  (forall r, In r l -> exists kvs, r = JObj kvs) ->
  exists out,
    LivednsFacts.build_each facts l = Ret out
    /\ Forall2 (fun r o => Livedns.build_result self r = Ret o) l out.
Proof.
  intros Hz Hd. induction l as [| r rest IH]; intros Hdict.
  - exists []. split; [reflexivity | constructor].
  - destruct (Hdict r (or_introl eq_refl)) as [kvs ->].
    destruct IH as [out [Eout Hout]]; [intros x Hx; apply Hdict; now right |].
    assert (Hnd : NoDup ["name"; "type"; "ttl"; "values"]).
    { repeat constructor; simpl; intuition discriminate. }
    destruct (copy_fields_dict kvs _ Hnd) as [res [Eres _]].
    eexists. cbn [LivednsFacts.build_each]. rewrite Eres, Eout.
    split; [reflexivity |].
    constructor; [| exact Hout].
    unfold Livedns.build_result. rewrite Eres, Hz, Hd. reflexivity.
Qed.

(** X9.  [build_results] of the facts module returns [None] for [None], and
    for a list of dictionaries a list of the same length in the same order,
    each record formatted exactly as [build_result] of the management module
    formats a record for the same zone and domain. *)
Theorem facts_build_results_agrees (facts : LivednsFacts.GandiAPI)
    (self : Livedns.GandiAPI) (l : list json) :
  LivednsFacts.zone facts = Livedns.zone self ->
  LivednsFacts.domain facts = Livedns.domain self ->
  (forall r, In r l -> exists kvs, r = JObj kvs) ->
  LivednsFacts.build_results facts None = Ret JNull
  /\ exists out,
       LivednsFacts.build_results facts (Some l) = Ret (JList out)
       /\ List.length out = List.length l
       /\ Forall2 (fun r o => Livedns.build_result self r = Ret o) l out.
Proof.
  intros Hz Hd Hdict. split; [reflexivity |].
  destruct (build_each_agrees facts self l Hz Hd Hdict) as [out [Eout Hout]].
  exists out. unfold LivednsFacts.build_results. rewrite Eout.
  split; [reflexivity |]. split; [| exact Hout].
  symmetry. eapply Forall2_length. exact Hout.
Qed.

Lemma facts_build_results_agrees_witness :
  let facts := LivednsFacts.init
                 (LivednsFacts.mkModule
                    (LivednsFacts.mkParams "dummyapitoken" (Some "www") None None
                                           (Some "my.com")) false) in
  let self := gandi false "www" Livedns.present 10800 "A" (Some ["192.0.2.1"])
                    None (Some "my.com") in
  let l := [rrset "www" "A" 300 ["192.0.2.1"]; rrset "www" "TXT" 300 ["hello"]] in
  LivednsFacts.build_results facts None = Ret JNull
  /\ exists out,
       LivednsFacts.build_results facts (Some l) = Ret (JList out)
       /\ List.length out = List.length l
       /\ Forall2 (fun r o => Livedns.build_result self r = Ret o) l out.
Proof.
  intros facts self l.
  apply (facts_build_results_agrees facts self l).
  - reflexivity.
  - reflexivity.
  - intros r [<- | [<- | []]]; eexists; reflexivity.
Defined.

(** ** The reconciler: create, update, delete *)

(** X10.  Present intent, outside check mode, nothing found (the lookup
    returned [None] or an empty list): [ensure_dns_record] sends one POST on
    the records of the scope with the four [rrset_] fields, and, the POST not
    being an error, reports [changed=True] whatever the status; the record it
    returns is the one it posted when the status is 201 and [None] for any
    other status. *)
Theorem ensure_creates_when_absent (self : Livedns.GandiAPI) (p : provider)
    (s s1 s2 : session) (zone_id : json) (records : option (list json)) :
  let new_record := JObj [("rrset_name", of_opt_str (Livedns.record self));
                          ("rrset_type", of_opt_str (Livedns.type self));
                          ("rrset_values", of_opt_strs (Livedns.values self));
                          ("rrset_ttl", of_opt_int (Livedns.ttl self))] in
  let post := mkRequest POST
                (api_endpoint +++ scope_url zone_id (Livedns.domain self) +++ "/records")
                (Livedns.api_key self) (Some new_record) in
  Livedns.check_mode (Livedns.module self) = false ->
  Livedns.resolve_zone self p s = (Ret zone_id, s1) ->
  Livedns.get_records self (Livedns.record self) (Livedns.type self)
                      zone_id (Livedns.domain self) p s1
  = (Ret records, s2) ->
  Livedns.nonempty records = false ->
  status (p (requests s2) post) < 400 ->
  decoded (resp_body (p (requests s2) post)) <> None ->
  Livedns.ensure_dns_record self p s
  = (Ret (if status (p (requests s2) post) =? 201 then new_record else JNull, true),
     mkSession (requests s2 ++ [post]) true).
Proof.
  intros new_record post Hcheck Hzone Hget Hnone Hst Hdec.
  destruct (decoded (resp_body (p (requests s2) post))) as [j |] eqn:Hj;
    [| congruence].
  assert (Hcreate :
    Livedns.create_record self (Livedns.record self) (Livedns.type self)
      (Livedns.values self) (Livedns.ttl self) zone_id (Livedns.domain self) p s2
    = (Ret (if status (p (requests s2) post) =? 201 then new_record else JNull),
       mkSession (requests s2 ++ [post]) (changed s2))).
  { unfold Livedns.create_record. fold new_record.
    erewrite bind_Ret;
      [| apply LivednsTraces.api_call_ok with (j := j); [left; exact Hst | exact Hj]].
    cbn [snd request_data py_truthy new_record]. fold new_record. fold post.
    destruct (status (p (requests s2) post) =? 201); reflexivity. }
  unfold Livedns.ensure_dns_record. cbv zeta.
  rewrite (bind_Ret _ _ _ _ _ _ Hzone).
  rewrite (bind_Ret _ _ _ _ _ _ Hget).
  destruct records as [[| r l] |]; try discriminate Hnone;
    rewrite Hcheck; rewrite (bind_Ret _ _ _ _ _ _ Hcreate); reflexivity.
Qed.

(** The create example of the documentation, the provider answering 200
    instead of 201: a change is reported and no record comes back. *)
Lemma ensure_creates_when_absent_witness :
  let self := gandi false "test" Livedns.present 10800 "A" (Some ["127.0.0.1"])
                    None (Some "my.com") in
  let p := route [(POST, api_endpoint +++ "/domains/my.com/records",
                   mkResponse 200 NoContent)]
                 (mkResponse 404 NoContent) in
  let new_record := JObj [("rrset_name", JStr "test"); ("rrset_type", JStr "A");
                          ("rrset_values", JList [JStr "127.0.0.1"]);
                          ("rrset_ttl", JNum 10800)] in
  let post := mkRequest POST (api_endpoint +++ "/domains/my.com/records")
                        "dummyapitoken" (Some new_record) in
  Livedns.ensure_dns_record self p fresh
  = (Ret (JNull, true),
     mkSession ([get_request "/domains/my.com/records/test/A"] ++ [post]) true).
Proof.
  intros self p new_record post.
  apply (ensure_creates_when_absent self p fresh fresh
           (mkSession [get_request "/domains/my.com/records/test/A"] false)
           JNull None).
  - reflexivity.
  - reflexivity.
  - reflexivity.
  - reflexivity.
  - simpl. lia.
  - simpl. discriminate.
Defined.

(** X11.  Present intent, outside check mode, a record found whose ttl or
    whose set of values is not the desired one: [ensure_dns_record] sends one
    PUT on [.../records/<name>/<type>] carrying the values and the ttl only,
    looks the record up again, and returns what that second lookup finds
    first, with [changed=True]. *)
Theorem ensure_updates_and_refetches (self : Livedns.GandiAPI) (p : provider)
    (s s1 s2 s4 : session) (zone_id : json) (kvs : list (string * json))
    (others : list json) (t t' : Z) (dvs rvs : list string)
    (after : json) (others' : list json) :
  let put := mkRequest PUT
               (api_endpoint +++ scope_url zone_id (Livedns.domain self)
                  +++ "/records/" +++ fmt_opt (Livedns.record self)
                  +++ "/" +++ fmt_opt (Livedns.type self))
               (Livedns.api_key self)
               (Some (JObj [("rrset_values", of_opt_strs (Livedns.values self));
                            ("rrset_ttl", of_opt_int (Livedns.ttl self))])) in
  let s3 := mkSession (requests s2 ++ [put]) (changed s2) in
  Livedns.check_mode (Livedns.module self) = false ->
  Livedns.resolve_zone self p s = (Ret zone_id, s1) ->
  Livedns.get_records self (Livedns.record self) (Livedns.type self)
                      zone_id (Livedns.domain self) p s1
  = (Ret (Some (JObj kvs :: others)), s2) ->
  Livedns.ttl self = Some t ->
  assoc "rrset_ttl" kvs = Some (JNum t') ->
  Livedns.values self = Some dvs ->
  assoc "rrset_values" kvs = Some (JList (map JStr rvs)) ->
  t <> t' \/ ~ (forall x, In x rvs <-> In x dvs) ->
  status (p (requests s2) put) < 400 ->
  decoded (resp_body (p (requests s2) put)) <> None ->
  Livedns.get_records self (Livedns.record self) (Livedns.type self)
                      zone_id (Livedns.domain self) p s3
  = (Ret (Some (after :: others')), s4) ->
  Livedns.ensure_dns_record self p s
  = (Ret (after, true), mkSession (requests s4) true)
  /\ exists l, requests s4 = requests s2 ++ put :: l /\ Forall is_get l.
Proof.
  intros put s3 Hcheck Hzone Hget Httl Ettl Hvalues Evalues Hdiff Hst Hdec Hget2.
  destruct (decoded (resp_body (p (requests s2) put))) as [j |] eqn:Hj;
    [| congruence].
  assert (Hupdate :
    Livedns.update_record self (Livedns.record self) (Livedns.type self)
      (Livedns.values self) (Livedns.ttl self) zone_id (Livedns.domain self) p s2
    = (Ret j, s3)).
  { unfold Livedns.update_record.
    erewrite bind_Ret;
      [| apply LivednsTraces.api_call_ok with (j := j);
         cbn [request_data py_truthy]; fold put; [left; exact Hst | exact Hj]].
    reflexivity. }
  assert (Et : Livedns.ttl_differs self (JObj kvs) = Ret (negb (t' =? t))).
  { unfold Livedns.ttl_differs. rewrite Httl. cbn [py_getitem]. now rewrite Ettl. }
  assert (Ev : Livedns.values_differ self (JObj kvs)
               = Ret (negb (set_eq (map JStr rvs) dvs))).
  { unfold Livedns.values_differ. rewrite Hvalues. cbn [py_getitem].
    now rewrite Evalues, py_set_strs. }
  assert (Hdo : negb (t' =? t) || negb (set_eq (map JStr rvs) dvs) = true).
  { destruct Hdiff as [Hne | Hne].
    - assert (E : (t' =? t) = false) by (apply Z.eqb_neq; congruence).
      now rewrite E.
    - destruct (set_eq (map JStr rvs) dvs) eqn:E; [| apply orb_true_r].
      exfalso. apply Hne. now apply set_eq_spec. }
  split.
  - unfold Livedns.ensure_dns_record. cbv zeta.
    rewrite (bind_Ret _ _ _ _ _ _ Hzone).
    rewrite (bind_Ret _ _ _ _ _ _ Hget).
    unfold bind at 1. unfold lift at 1. rewrite Et.
    unfold bind at 1. unfold lift at 1. rewrite Ev.
    rewrite Hdo, Hcheck.
    assert (Hinner :
      bind (Livedns.update_record self (Livedns.record self) (Livedns.type self)
              (Livedns.values self) (Livedns.ttl self) zone_id (Livedns.domain self))
           (fun _ =>
              bind (Livedns.get_records self (Livedns.record self) (Livedns.type self)
                      zone_id (Livedns.domain self))
                   (fun records => lift (py_first records))) p s2
      = (Ret after, s4)).
    { rewrite (bind_Ret _ _ _ _ _ _ Hupdate).
      rewrite (bind_Ret _ _ _ _ _ _ Hget2). reflexivity. }
    rewrite (bind_Ret _ _ _ _ _ _ Hinner). reflexivity.
  - pose proof (LivednsTraces.calls_get_records self (Livedns.record self)
                  (Livedns.type self) zone_id (Livedns.domain self) p s3) as H.
    rewrite Hget2 in H. cbn [snd] in H. destruct H as [[l [E F]] _].
    exists l. split.
    + rewrite E. unfold s3. cbn [requests]. now rewrite <- app_assoc.
    + eapply Forall_impl; [| exact F]. intros r [Hm _]. exact Hm.
Qed.

(** The ttl example of the documentation: [mail CNAME] is there with ttl 300,
    10800 is wanted. *)
Lemma ensure_updates_and_refetches_witness :
  let self := gandi false "mail" Livedns.present 10800 "CNAME" (Some ["www"])
                    None (Some "my.com") in
  let p := after_put (mkResponse 200 (Content (rrset "mail" "CNAME" 300 ["www"])))
                     (mkResponse 200 (Content (rrset "mail" "CNAME" 10800 ["www"]))) in
  let get := get_request "/domains/my.com/records/mail/CNAME" in
  let put := mkRequest PUT (api_endpoint +++ "/domains/my.com/records/mail/CNAME")
               "dummyapitoken"
               (Some (JObj [("rrset_values", JList [JStr "www"]);
                            ("rrset_ttl", JNum 10800)])) in
  Livedns.ensure_dns_record self p fresh
  = (Ret (rrset "mail" "CNAME" 10800 ["www"], true),
     mkSession (requests (mkSession [get; put; get] false)) true)
  /\ exists l, requests (mkSession [get; put; get] false)
               = requests (mkSession [get] false) ++ put :: l
               /\ Forall is_get l.
Proof.
  intros self p get put.
  apply (ensure_updates_and_refetches self p fresh fresh
           (mkSession [get] false) (mkSession [get; put; get] false)
           JNull
           [("rrset_name", JStr "mail"); ("rrset_type", JStr "CNAME");
            ("rrset_ttl", JNum 300); ("rrset_values", JList [JStr "www"])]
           [] 10800 300 ["www"] ["www"]
           (rrset "mail" "CNAME" 10800 ["www"]) []).
  - reflexivity.
  - reflexivity.
  - reflexivity.
  - reflexivity.
  - reflexivity.
  - reflexivity.
  - reflexivity.
  - left. discriminate.
  - simpl. lia.
  - simpl. discriminate.
  - reflexivity.
Defined.

(** X12.  Absent intent, outside check mode, a record found, a type and a
    record name given and no values: [delete_dns_records] sends one DELETE on
    [.../records/<name>/<type>] with no body, and, the DELETE not being an
    error, returns [True] whatever its status; nothing is looked up
    afterwards. *)
Theorem delete_found_record (self : Livedns.GandiAPI) (p : provider)
    (s s1 s2 : session) (zone_id : json) (records : option (list json))
    (name type : string) :
  let del := mkRequest DELETE
               (api_endpoint +++ scope_url zone_id (Livedns.domain self)
                  +++ "/records/" +++ name +++ "/" +++ type)
               (Livedns.api_key self) None in
  Livedns.check_mode (Livedns.module self) = false ->
  Livedns.record self = Some name ->
  Livedns.type self = Some type ->
  Livedns.values self = None ->
  Livedns.resolve_zone self p s = (Ret zone_id, s1) ->
  Livedns.get_records self (Some name) (Some type) zone_id (Livedns.domain self) p s1
  = (Ret records, s2) ->
  Livedns.nonempty records = true ->
  status (p (requests s2) del) < 400 ->
  decoded (resp_body (p (requests s2) del)) <> None ->
  Livedns.delete_dns_records self p s
  = (Ret true, mkSession (requests s2 ++ [del]) true).
Proof.
  intros del Hcheck Hrecord Htype Hvalues Hzone Hget Hsome Hst Hdec.
  destruct (decoded (resp_body (p (requests s2) del))) as [j |] eqn:Hj;
    [| congruence].
  assert (Hdel :
    Livedns.delete_record self (Some name) (Some type) zone_id (Livedns.domain self)
      p (mkSession (requests s2) true)
    = (Ret tt, mkSession (requests s2 ++ [del]) true)).
  { unfold Livedns.delete_record. rewrite Hrecord, Htype, Hvalues.
    cbn [is_some negb orb fmt_opt].
    erewrite bind_Ret;
      [| apply LivednsTraces.api_call_ok with (j := j);
         cbn [request_data requests]; fold del; [left; exact Hst | exact Hj]].
    reflexivity. }
  unfold Livedns.delete_dns_records.
  rewrite (bind_Ret _ _ _ _ _ _ Hzone).
  rewrite Hrecord, Htype.
  rewrite (bind_Ret _ _ _ _ _ _ Hget).
  rewrite Hsome, Hcheck. cbn [negb].
  unfold bind at 1. unfold bind at 1. unfold set_changed at 1.
  rewrite Hdel. reflexivity.
Qed.

(** The delete example of the documentation. *)
Lemma delete_found_record_witness :
  let self := gandi false "mail" Livedns.absent 10800 "CNAME" None
                    None (Some "my.com") in
  let p := route [(DELETE, api_endpoint +++ "/domains/my.com/records/mail/CNAME",
                   mkResponse 204 NoContent)]
                 (mkResponse 200 (Content (rrset "mail" "CNAME" 300 ["www"]))) in
  Livedns.delete_dns_records self p fresh
  = (Ret true,
     mkSession
       (requests (mkSession [get_request "/domains/my.com/records/mail/CNAME"] false)
        ++ [mkRequest DELETE (api_endpoint +++ "/domains/my.com/records/mail/CNAME")
                      "dummyapitoken" None])
       true).
Proof.
  intros self p.
  apply (delete_found_record self p fresh fresh
           (mkSession [get_request "/domains/my.com/records/mail/CNAME"] false)
           JNull (Some [rrset "mail" "CNAME" 300 ["www"]]) "mail" "CNAME").
  - reflexivity.
  - reflexivity.
  - reflexivity.
  - reflexivity.
  - reflexivity.
  - reflexivity.
  - reflexivity.
  - simpl. lia.
  - simpl. discriminate.
Defined.

(** ** What a whole run sends *)

Lemma AnsibleModule_accepts (a : Livedns.args) (check : bool) (m : Livedns.module_t) :
  Livedns.AnsibleModule a check = Ret m ->
  Livedns.check_mode m = check
  /\ Some (Livedns.param_api_key (Livedns.module_params m)) = Livedns.arg_api_key a.
Proof.
  unfold Livedns.AnsibleModule. intros H.
  destruct (Livedns.arg_api_key a); [| discriminate].
  destruct (negb (valid_choice (Livedns.arg_type a))); [discriminate |].
  destruct (match _ with Livedns.present => _ | Livedns.absent => _ end);
    [| discriminate].
  injection H as <-. split; reflexivity.
Qed.

(** Proves [sends is_get m] for a computation made of lookups. *)
Ltac gets_tac :=
  unfold sends;
  repeat (first
    [ respects_step
    | apply calls_sends, LivednsTraces.calls_resolve_zone
    | apply calls_sends; eapply calls_mono;
      [| apply LivednsTraces.calls_get_records];
      let r := fresh in let Hm := fresh in intros r [Hm _]; exact Hm ];
    try discriminate).

Lemma check_mode_delete_sends_gets (self : Livedns.GandiAPI) :
  Livedns.check_mode (Livedns.module self) = true ->
  sends is_get (Livedns.delete_dns_records self).
Proof.
  intros Hcheck. unfold Livedns.delete_dns_records. rewrite Hcheck.
  cbn [negb]. cbv iota. gets_tac.
Qed.

(** X13.  In check mode the management module is read-only: whatever the
    arguments, the intent and the provider's answers, every request [main]
    sends is a GET. *)
Theorem check_mode_is_read_only {Unicode : StrLower} (a : Livedns.args) (p : provider) :
  Forall is_get (snd (Livedns.main a true p)).
Proof.
  unfold Livedns.main.
  destruct (Livedns.AnsibleModule a true) as [m | f] eqn:Hargs; [| constructor].
  destruct (AnsibleModule_accepts a true m Hargs) as [Hcheck _].
  assert (Hrun : sends is_get (Livedns.run_module m)).
  { unfold Livedns.run_module.
    destruct (_ && _); [apply respects_fail_json; exact _ |].
    destruct (Livedns.state (Livedns.init m)).
    - apply respects_bind; [exact _ | now apply check_mode_sends_gets |].
      intros [result changed]. gets_tac.
    - apply respects_bind; [exact _ | now apply check_mode_delete_sends_gets |].
      intros changed. gets_tac. }
  destruct (Hrun p fresh) as [l [El Fl]].
  destruct (Livedns.run_module m p fresh) as [[e | f] s1];
    cbn [snd requests fresh app] in *; now rewrite El.
Qed.

Lemma mutations_app (l1 l2 : list request) :
  mutations (l1 ++ l2) = (mutations l1 + mutations l2)%nat.
Proof. unfold mutations. now rewrite filter_app, length_app. Qed.

Lemma mutations_gets (l : list request) : Forall is_get l -> mutations l = 0%nat.
Proof.
  unfold mutations. induction 1 as [| r l Hr _ IH]; [reflexivity |].
  simpl. unfold is_get in Hr. now rewrite Hr.
Qed.

Lemma at_most_gets {A} (m : M A) : sends is_get m -> sends_at_most 0 m.
Proof.
  intros H p s. destruct (H p s) as [l [E F]].
  exists l. split; [exact E | now rewrite mutations_gets].
Qed.

Lemma at_most_weaken {A} (n n' : nat) (m : M A) :
  (n <= n')%nat -> sends_at_most n m -> sends_at_most n' m.
Proof.
  intros Hle H p s. destruct (H p s) as [l [E Hl]].
  exists l. split; [exact E | lia].
Qed.

Lemma at_most_bind {A B} (n k : nat) (m : M A) (f : A -> M B) :
  sends_at_most n m -> (forall a, sends_at_most k (f a)) ->
  sends_at_most (n + k) (bind m f).
Proof.
  intros Hm Hf p s. unfold bind.
  destruct (Hm p s) as [l1 [E1 H1]].
  destruct (m p s) as [[a | e] s1]; cbn [snd] in *.
  - destruct (Hf a p s1) as [l2 [E2 H2]].
    exists (l1 ++ l2). split.
    + now rewrite E2, E1, app_assoc.
    + rewrite mutations_app. lia.
  - exists l1. split; [exact E1 | lia].
Qed.

Lemma at_most_api_call (self : Livedns.GandiAPI) (api_call : string)
    (method : http_method) (payload : option json) (e404 : bool) :
  sends_at_most 1 (Livedns._gandi_api_call self api_call method payload e404).
Proof.
  intros p s. eexists [_]. split.
  - unfold Livedns._gandi_api_call, bind, fetch_url.
    destruct (resp_body _); destruct (_ && _); reflexivity.
  - unfold mutations. simpl. destruct (mutating method); simpl; lia.
Qed.

Lemma at_most_then_gets {A B} (m : M A) (f : A -> M B) :
  sends_at_most 1 m -> (forall a, sends is_get (f a)) ->
  sends_at_most 1 (bind m f).
Proof.
  intros Hm Hf. apply (at_most_bind 1 0); [exact Hm |].
  intros a. apply at_most_gets, Hf.
Qed.

Lemma at_most_after_gets {A B} (m : M A) (f : A -> M B) :
  sends is_get m -> (forall a, sends_at_most 1 (f a)) ->
  sends_at_most 1 (bind m f).
Proof.
  intros Hm Hf. apply (at_most_bind 0 1); [now apply at_most_gets | exact Hf].
Qed.

Lemma at_most_one_ensure (self : Livedns.GandiAPI) :
  sends_at_most 1 (Livedns.ensure_dns_record self).
Proof.
  assert (Hcreate : forall zone_id,
    sends_at_most 1
      (bind (if Livedns.check_mode (Livedns.module self)
             then ret (Livedns.desired_record self)
             else Livedns.create_record self (Livedns.record self) (Livedns.type self)
                    (Livedns.values self) (Livedns.ttl self) zone_id
                    (Livedns.domain self))
            (fun result =>
               bind set_changed
                    (fun _ => bind get_changed (fun c => ret (result, c)))))).
  { intros zone_id. apply at_most_then_gets; [| intros; gets_tac].
    destruct (Livedns.check_mode (Livedns.module self)).
    - apply (at_most_weaken 0); [lia |]. apply at_most_gets. gets_tac.
    - unfold Livedns.create_record.
      apply at_most_then_gets; [apply at_most_api_call | intros; gets_tac]. }
  unfold Livedns.ensure_dns_record. cbv zeta.
  apply at_most_after_gets; [gets_tac | intros zone_id].
  apply at_most_after_gets; [gets_tac | intros records].
  destruct records as [[| r others] |]; try apply Hcreate.
  apply at_most_after_gets; [gets_tac | intros by_ttl].
  apply at_most_after_gets; [gets_tac | intros by_values].
  destruct (by_ttl || by_values).
  - apply at_most_then_gets; [| intros; gets_tac].
    destruct (Livedns.check_mode (Livedns.module self)).
    + apply (at_most_weaken 0); [lia |]. apply at_most_gets. gets_tac.
    + apply at_most_then_gets; [| intros; gets_tac].
      unfold Livedns.update_record.
      apply at_most_then_gets; [apply at_most_api_call | intros; gets_tac].
  - apply (at_most_weaken 0); [lia |]. apply at_most_gets. gets_tac.
Qed.

Lemma at_most_one_delete (self : Livedns.GandiAPI) :
  sends_at_most 1 (Livedns.delete_dns_records self).
Proof.
  unfold Livedns.delete_dns_records.
  apply at_most_after_gets; [gets_tac | intros zone_id].
  apply at_most_after_gets; [gets_tac | intros records].
  apply at_most_then_gets; [| intros; gets_tac].
  destruct (Livedns.nonempty records);
    [| apply (at_most_weaken 0); [lia |]; apply at_most_gets; gets_tac].
  apply at_most_after_gets; [gets_tac | intros _].
  destruct (negb (Livedns.check_mode (Livedns.module self)));
    [| apply (at_most_weaken 0); [lia |]; apply at_most_gets; gets_tac].
  unfold Livedns.delete_record.
  destruct (_ || _);
    [apply (at_most_weaken 0); [lia |]; apply at_most_gets; gets_tac |].
  destruct (is_some _);
    [apply (at_most_weaken 0); [lia |]; apply at_most_gets; gets_tac |].
  apply at_most_then_gets; [apply at_most_api_call | intros; gets_tac].
Qed.

(** X14.  A run of the management module sends at most one request that is
    not a GET, whatever the arguments, the mode and the provider's answers. *)
Theorem at_most_one_mutation {Unicode : StrLower} (a : Livedns.args) (check : bool) (p : provider) :
  (mutations (snd (Livedns.main a check p)) <= 1)%nat.
Proof.
  unfold Livedns.main.
  destruct (Livedns.AnsibleModule a check) as [m | f];
    [| unfold mutations; simpl; lia].
  assert (Hrun : sends_at_most 1 (Livedns.run_module m)).
  { unfold Livedns.run_module.
    destruct (_ && _); [apply (at_most_weaken 0); [lia |]; apply at_most_gets; gets_tac |].
    destruct (Livedns.state (Livedns.init m)).
    - apply at_most_then_gets; [apply at_most_one_ensure |].
      intros [result changed]. gets_tac.
    - apply at_most_then_gets; [apply at_most_one_delete |].
      intros changed. gets_tac. }
  destruct (Hrun p fresh) as [l [El Hl]].
  destruct (Livedns.run_module m p fresh) as [[e | f] s1];
    cbn [snd requests fresh app] in *; now rewrite El.
Qed.

Lemma sends_any_run_module {Unicode : StrLower} (P : request -> Prop) (m : Livedns.module_t) :
  (forall meth url d,
     P (mkRequest meth (api_endpoint +++ url)
                  (Livedns.param_api_key (Livedns.module_params m)) d)) ->
  sends P (Livedns.run_module m).
Proof.
  intros HP.
  unfold Livedns.run_module, Livedns.ensure_dns_record, Livedns.delete_dns_records,
    Livedns.resolve_zone, Livedns._get_zone_id, Livedns.get_zones,
    Livedns.get_records, Livedns.create_record, Livedns.update_record,
    Livedns.delete_record, sends.
  repeat first
    [ respects_step
    | apply calls_sends, LivednsTraces.calls_api_call; intros; apply HP ].
Qed.

(** X15.  Every request a run of the management module sends carries the
    API key given in the arguments and goes to a URL under the API
    endpoint. *)
Theorem every_request_is_authenticated {Unicode : StrLower} (a : Livedns.args) (check : bool)
    (p : provider) (key : string) :
  Livedns.arg_api_key a = Some key ->
  Forall (authenticated key) (snd (Livedns.main a check p)).
Proof.
  intros Hkey. unfold Livedns.main.
  destruct (Livedns.AnsibleModule a check) as [m | f] eqn:Hargs; [| constructor].
  destruct (AnsibleModule_accepts a check m Hargs) as [_ Hm].
  rewrite Hkey in Hm. injection Hm as Hm.
  assert (Hrun : sends (authenticated key) (Livedns.run_module m)).
  { apply sends_any_run_module. intros meth url d. rewrite Hm.
    split; [reflexivity | apply prefix_refl_app]. }
  destruct (Hrun p fresh) as [l [El Fl]].
  destruct (Livedns.run_module m p fresh) as [[e | f] s1];
    cbn [snd requests fresh app] in *; now rewrite El.
Qed.

Lemma every_request_is_authenticated_witness :
  Forall (authenticated "dummyapitoken")
    (snd (Livedns.main
            (task "www" Livedns.present "A" (Some ["192.0.2.9"])
                  (Some "my.com") None)
            false my_com_provider)).
Proof.
  apply (every_request_is_authenticated
           (task "www" Livedns.present "A" (Some ["192.0.2.9"]) (Some "my.com") None)
           false my_com_provider "dummyapitoken").
  reflexivity.
Defined.

(** ** Case folding *)

Lemma str_truthy_lower {Unicode : StrLower} (o : option string) :
  str_truthy (lowercase_string o) = str_truthy o.
Proof.
  destruct o as [s |]; [| reflexivity]. simpl.
  destruct (String.eqb_spec s "") as [-> | Hne].
  - now rewrite (lower_on_ascii "" eq_refl).
  - destruct (String.eqb_spec (lower s) "") as [E | _]; [| reflexivity].
    exfalso. apply Hne. now apply lower_nonempty.
Qed.

(** X16.  The record name and the domain are folded to lowercase before
    anything is done with them: two argument sets that differ only in the
    case of letters of [record] and [domain] give the same requests and the
    same exit, whatever the provider. *)
Theorem record_and_domain_case_is_ignored {Unicode : StrLower} (a1 a2 : Livedns.args) (check : bool)
    (p : provider) :
  same_up_to_case a1 a2 ->
  Livedns.main a1 check p = Livedns.main a2 check p.
Proof.
  destruct a1 as [k1 r1 st1 ttl1 ty1 v1 z1 d1], a2 as [k2 r2 st2 ttl2 ty2 v2 z2 d2].
  unfold same_up_to_case. cbn.
  intros (-> & Hr & -> & -> & -> & -> & -> & Hd).
  assert (Htd : str_truthy d1 = str_truthy d2).
  { rewrite <- (str_truthy_lower d1), <- (str_truthy_lower d2). now rewrite Hd. }
  assert (Hr' : lowercase_string (Livedns.default "@" r1)
                = lowercase_string (Livedns.default "@" r2)).
  { destruct r1, r2; cbn in *; congruence. }
  unfold Livedns.main, Livedns.AnsibleModule. cbn.
  destruct k2 as [key |]; [| reflexivity].
  destruct (negb (valid_choice ty2)); [reflexivity |].
  assert (Hsome : forall r, is_some (Livedns.default "@" r) = true)
    by (intros [r |]; reflexivity).
  rewrite !Hsome. cbn [andb].
  destruct (match match st2 with Some s => s | None => Livedns.present end with
            | Livedns.present => is_some ty2 && is_some v2
            | Livedns.absent => is_some ty2
            end); [| reflexivity].
  unfold Livedns.run_module. cbn. rewrite Htd.
  destruct (negb (str_truthy z2) && negb (str_truthy d2)); [reflexivity |].
  unfold Livedns.init. cbn. rewrite Hr', Hd.
  destruct (match st2 with Some s => s | None => Livedns.present end); reflexivity.
Qed.

Lemma record_and_domain_case_is_ignored_witness :
  Livedns.main (task "WWW" Livedns.present "A" (Some ["192.0.2.1"]) None (Some "My.Com"))
               false (always (mkResponse 404 NoContent))
  = Livedns.main (task "www" Livedns.present "A" (Some ["192.0.2.1"]) None (Some "my.com"))
                 false (always (mkResponse 404 NoContent)).
Proof.
  apply (record_and_domain_case_is_ignored
           (task "WWW" Livedns.present "A" (Some ["192.0.2.1"]) None (Some "My.Com"))
           (task "www" Livedns.present "A" (Some ["192.0.2.1"]) None (Some "my.com"))
           false (always (mkResponse 404 NoContent))).
  repeat split.
Defined.

(** ** Answers the reconciler does not expect *)

(** X17.  Present intent with a ttl wanted: when reading [rrset_ttl] of the
    first record found raises (the record has no such key, or the lookup
    brought back something that is not a dictionary, an empty body for
    one), [ensure_dns_record] ends with that exception, uncaught, having
    sent nothing but the GET requests of the lookup. *)
Theorem ensure_fails_on_record_without_ttl (self : Livedns.GandiAPI) (p : provider)
    (s s1 s2 : session) (zone_id r : json) (others : list json) (t : Z)
    (f : failure) :
  Livedns.resolve_zone self p s = (Ret zone_id, s1) ->
  Livedns.get_records self (Livedns.record self) (Livedns.type self)
                      zone_id (Livedns.domain self) p s1
  = (Ret (Some (r :: others)), s2) ->
  Livedns.ttl self = Some t ->
  py_getitem r "rrset_ttl" = Fail f ->
  Livedns.ensure_dns_record self p s = (Fail f, s2)
  /\ exists l, requests s2 = requests s ++ l /\ Forall is_get l.
Proof.
  intros Hzone Hget Httl Hr.
  destruct (LivednsTraces.lookup_quiet self p s s1 s2 zone_id _ Hzone Hget)
    as [Hsent _].
  split; [| exact Hsent].
  unfold Livedns.ensure_dns_record. cbv zeta.
  rewrite (bind_Ret _ _ _ _ _ _ Hzone).
  rewrite (bind_Ret _ _ _ _ _ _ Hget).
  unfold bind at 1. unfold lift at 1.
  unfold Livedns.ttl_differs. now rewrite Httl, Hr.
Qed.

(** The provider answers the lookup with 200 and an empty body. *)
Lemma ensure_fails_on_record_without_ttl_witness :
  let self := gandi false "www" Livedns.present 10800 "A" (Some ["192.0.2.1"])
                    None (Some "my.com") in
  let s2 := mkSession [get_request "/domains/my.com/records/www/A"] false in
  Livedns.ensure_dns_record self (always (mkResponse 200 NoContent)) fresh
  = (Fail (uncaught TypeError), s2)
  /\ exists l, requests s2 = requests fresh ++ l /\ Forall is_get l.
Proof.
  intros self s2.
  apply (ensure_fails_on_record_without_ttl self
           (always (mkResponse 200 NoContent)) fresh fresh s2 JNull JNull [] 10800
           (uncaught TypeError)); reflexivity.
Defined.

(** X18.  Present intent, outside check mode, an update sent (as in X11):
    when the lookup that follows the PUT finds nothing ([None] on a 404, or
    an empty list), [ensure_dns_record] ends with an uncaught exception
    ([TypeError] for [None], [IndexError] for the empty list) although the
    PUT has been sent. *)
Theorem ensure_update_then_nothing_found (self : Livedns.GandiAPI) (p : provider)
    (s s1 s2 s4 : session) (zone_id : json) (kvs : list (string * json))
    (others : list json) (t t' : Z) (dvs rvs : list string)
    (records' : option (list json)) :
  let put := mkRequest PUT
               (api_endpoint +++ scope_url zone_id (Livedns.domain self)
                  +++ "/records/" +++ fmt_opt (Livedns.record self)
                  +++ "/" +++ fmt_opt (Livedns.type self))
               (Livedns.api_key self)
               (Some (JObj [("rrset_values", of_opt_strs (Livedns.values self));
                            ("rrset_ttl", of_opt_int (Livedns.ttl self))])) in
  let s3 := mkSession (requests s2 ++ [put]) (changed s2) in
  Livedns.check_mode (Livedns.module self) = false ->
  Livedns.resolve_zone self p s = (Ret zone_id, s1) ->
  Livedns.get_records self (Livedns.record self) (Livedns.type self)
                      zone_id (Livedns.domain self) p s1
  = (Ret (Some (JObj kvs :: others)), s2) ->
  Livedns.ttl self = Some t ->
  assoc "rrset_ttl" kvs = Some (JNum t') ->
  Livedns.values self = Some dvs ->
  assoc "rrset_values" kvs = Some (JList (map JStr rvs)) ->
  t <> t' \/ ~ (forall x, In x rvs <-> In x dvs) ->
  status (p (requests s2) put) < 400 ->
  decoded (resp_body (p (requests s2) put)) <> None ->
  Livedns.get_records self (Livedns.record self) (Livedns.type self)
                      zone_id (Livedns.domain self) p s3
  = (Ret records', s4) ->
  Livedns.nonempty records' = false ->
  Livedns.ensure_dns_record self p s
  = (Fail (uncaught (match records' with None => TypeError | Some _ => IndexError end)),
     s4)
  /\ In put (requests s4).
Proof.
  intros put s3 Hcheck Hzone Hget Httl Ettl Hvalues Evalues Hdiff Hst Hdec Hget2 Hnone.
  destruct (decoded (resp_body (p (requests s2) put))) as [j |] eqn:Hj;
    [| congruence].
  assert (Hupdate :
    Livedns.update_record self (Livedns.record self) (Livedns.type self)
      (Livedns.values self) (Livedns.ttl self) zone_id (Livedns.domain self) p s2
    = (Ret j, s3)).
  { unfold Livedns.update_record.
    erewrite bind_Ret;
      [| apply LivednsTraces.api_call_ok with (j := j);
         cbn [request_data py_truthy]; fold put; [left; exact Hst | exact Hj]].
    reflexivity. }
  assert (Et : Livedns.ttl_differs self (JObj kvs) = Ret (negb (t' =? t))).
  { unfold Livedns.ttl_differs. rewrite Httl. cbn [py_getitem]. now rewrite Ettl. }
  assert (Ev : Livedns.values_differ self (JObj kvs)
               = Ret (negb (set_eq (map JStr rvs) dvs))).
  { unfold Livedns.values_differ. rewrite Hvalues. cbn [py_getitem].
    now rewrite Evalues, py_set_strs. }
  assert (Hdo : negb (t' =? t) || negb (set_eq (map JStr rvs) dvs) = true).
  { destruct Hdiff as [Hne | Hne].
    - assert (E : (t' =? t) = false) by (apply Z.eqb_neq; congruence).
      now rewrite E.
    - destruct (set_eq (map JStr rvs) dvs) eqn:E; [| apply orb_true_r].
      exfalso. apply Hne. now apply set_eq_spec. }
  split.
  - unfold Livedns.ensure_dns_record. cbv zeta.
    rewrite (bind_Ret _ _ _ _ _ _ Hzone).
    rewrite (bind_Ret _ _ _ _ _ _ Hget).
    unfold bind at 1. unfold lift at 1. rewrite Et.
    unfold bind at 1. unfold lift at 1. rewrite Ev.
    rewrite Hdo, Hcheck.
    assert (Hinner :
      bind (Livedns.update_record self (Livedns.record self) (Livedns.type self)
              (Livedns.values self) (Livedns.ttl self) zone_id (Livedns.domain self))
           (fun _ =>
              bind (Livedns.get_records self (Livedns.record self) (Livedns.type self)
                      zone_id (Livedns.domain self))
                   (fun records => lift (py_first records))) p s2
      = (Fail (uncaught (match records' with
                         | None => TypeError
                         | Some _ => IndexError
                         end)), s4)).
    { rewrite (bind_Ret _ _ _ _ _ _ Hupdate).
      rewrite (bind_Ret _ _ _ _ _ _ Hget2).
      destruct records' as [[| r l] |]; try discriminate Hnone; reflexivity. }
    rewrite (bind_Fail _ _ _ _ _ _ Hinner). reflexivity.
  - pose proof (LivednsTraces.calls_get_records self (Livedns.record self)
                  (Livedns.type self) zone_id (Livedns.domain self) p s3) as H.
    rewrite Hget2 in H. cbn [snd] in H. destruct H as [[l [E _]] _].
    rewrite E. unfold s3. cbn [requests].
    apply in_or_app. left. apply in_or_app. right. now left.
Qed.

(** The record is there, the PUT goes through, and the provider answers 404
    to the lookup that follows. *)
Lemma ensure_update_then_nothing_found_witness :
  let self := gandi false "mail" Livedns.present 10800 "CNAME" (Some ["www"])
                    None (Some "my.com") in
  let p := after_put (mkResponse 200 (Content (rrset "mail" "CNAME" 300 ["www"])))
                     (mkResponse 404 NoContent) in
  let get := get_request "/domains/my.com/records/mail/CNAME" in
  let put := mkRequest PUT (api_endpoint +++ "/domains/my.com/records/mail/CNAME")
               "dummyapitoken"
               (Some (JObj [("rrset_values", JList [JStr "www"]);
                            ("rrset_ttl", JNum 10800)])) in
  Livedns.ensure_dns_record self p fresh
  = (Fail (uncaught TypeError), mkSession [get; put; get] false)
  /\ In put (requests (mkSession [get; put; get] false)).
Proof.
  intros self p get put.
  apply (ensure_update_then_nothing_found self p fresh fresh
           (mkSession [get] false) (mkSession [get; put; get] false)
           JNull
           [("rrset_name", JStr "mail"); ("rrset_type", JStr "CNAME");
            ("rrset_ttl", JNum 300); ("rrset_values", JList [JStr "www"])]
           [] 10800 300 ["www"] ["www"] None).
  - reflexivity.
  - reflexivity.
  - reflexivity.
  - reflexivity.
  - reflexivity.
  - reflexivity.
  - reflexivity.
  - left. discriminate.
  - simpl. lia.
  - simpl. discriminate.
  - reflexivity.
  - reflexivity.
Defined.

(** ** A run of the facts module *)

Lemma facts_api_call_ok (self : LivednsFacts.GandiAPI) (api_call : string)
    (method : http_method) (payload : option json) (e404 : bool)
    (p : provider) (s : session) (j : json) :
  let req := mkRequest method (api_endpoint +++ api_call) (LivednsFacts.api_key self)
                       (request_data payload) in
  status (p (requests s) req) < 400 ->
  decoded (resp_body (p (requests s) req)) = Some j ->
  LivednsFacts._gandi_api_call self api_call method payload e404 p s
  = (Ret (j, status (p (requests s) req)),
     mkSession (requests s ++ [req]) (changed s)).
Proof.
  intros req Hst Hj.
  unfold LivednsFacts._gandi_api_call, bind, fetch_url. fold req.
  assert (E : (400 <=? status (p (requests s) req)) = false)
    by (apply Z.leb_gt; exact Hst).
  rewrite E.
  destruct (resp_body (p (requests s) req)); simpl in Hj; try discriminate;
    injection Hj as <-; reflexivity.
Qed.

(** X19.  Facts module, a domain and no zone, a record name given: [main]
    sends one GET on the record's path (name lowercased, then the type when
    there is one) and, the answer not being an error, exits with
    [changed=False] and, under [ansible_facts.gandi_livedns_facts.records],
    what [build_results] makes of the body, taken as a list. *)
Theorem facts_reports_what_it_finds {Unicode : StrLower} (a : LivednsFacts.args) (check : bool)
    (m : LivednsFacts.module_t) (p : provider) (j built : json) :
  let self := LivednsFacts.init m in
  let req := mkRequest GET
               (api_endpoint +++ records_url (lowercase_string (LivednsFacts.arg_record a))
                                             (LivednsFacts.arg_type a) JNull
                                             (lowercase_string (LivednsFacts.arg_domain a)))
               (LivednsFacts.api_key self) None in
  LivednsFacts.AnsibleModule a check = Ret m ->
  str_truthy (LivednsFacts.arg_zone a) = false ->
  str_truthy (LivednsFacts.arg_domain a) = true ->
  str_truthy (LivednsFacts.arg_record a) = true ->
  status (p [] req) < 400 ->
  decoded (resp_body (p [] req)) = Some j ->
  LivednsFacts.build_results self (Some (match j with JList l => l | _ => [j] end))
  = Ret built ->
  LivednsFacts.main a check p
  = (exit_json false
       [("ansible_facts", JObj [("gandi_livedns_facts", JObj [("records", built)])])],
     [req]).
Proof.
  intros self req Hargs Hz Hd Hr Hst Hj Hbuilt.
  unfold LivednsFacts.main. rewrite Hargs.
  unfold LivednsFacts.AnsibleModule in Hargs.
  destruct (LivednsFacts.arg_api_key a) as [key |]; [| discriminate].
  destruct (negb (valid_choice (LivednsFacts.arg_type a))); [discriminate |].
  injection Hargs as Hm.
  assert (Hzone :
            match LivednsFacts.zone self with
            | Some z => if negb (z =? "")%string
                        then LivednsFacts._get_zone_id self z else ret JNull
            | None => ret JNull
            end = ret JNull).
  { assert (Ez : LivednsFacts.zone self = LivednsFacts.arg_zone a)
      by (unfold self; rewrite <- Hm; reflexivity).
    rewrite Ez.
    destruct (LivednsFacts.arg_zone a) as [z |]; [| reflexivity].
    simpl in Hz. now rewrite Hz. }
  assert (Hget : LivednsFacts.get_records self (LivednsFacts.record self)
                   (LivednsFacts.type self) JNull (LivednsFacts.domain self) p fresh
                 = (Ret (Some (match j with JList l => l | _ => [j] end)),
                    mkSession [req] false)).
  { unfold LivednsFacts.get_records. cbv zeta.
    assert (Efields : LivednsFacts.record self = lowercase_string (LivednsFacts.arg_record a)
                      /\ LivednsFacts.type self = LivednsFacts.arg_type a
                      /\ LivednsFacts.domain self
                         = lowercase_string (LivednsFacts.arg_domain a)).
    { unfold self. rewrite <- Hm. repeat split. }
    destruct Efields as (-> & -> & ->).
    erewrite bind_Ret;
      [| apply facts_api_call_ok with (j := j);
         cbn [request_data requests fresh]; fold req; [exact Hst | exact Hj]].
    cbn [request_data requests fresh app changed]. fold req.
    assert (E : (status (p [] req) =? 404) = false) by (apply Z.eqb_neq; lia).
    rewrite E, str_truthy_lower, Hr. cbn [negb andb]. destruct j; reflexivity. }
  unfold LivednsFacts.run_module.
  assert (Escope : negb (str_truthy (LivednsFacts.param_zone (LivednsFacts.module_params m)))
                   && negb (str_truthy (LivednsFacts.param_domain
                                          (LivednsFacts.module_params m))) = false).
  { rewrite <- Hm. cbn. rewrite Hd. apply andb_false_r. }
  rewrite Escope. fold self.
  unfold LivednsFacts.get_dns_records. rewrite Hzone.
  assert (Hlookup :
    bind (ret JNull)
         (fun zone_id =>
            LivednsFacts.get_records self (LivednsFacts.record self)
              (LivednsFacts.type self) zone_id (LivednsFacts.domain self)) p fresh
    = (Ret (Some (match j with JList l => l | _ => [j] end)), mkSession [req] false)).
  { unfold bind at 1. unfold ret at 1. exact Hget. }
  rewrite (bind_Ret _ _ _ _ _ _ Hlookup).
  unfold bind, lift, ret. rewrite Hbuilt. reflexivity.
Qed.

(** The first example of the facts module's documentation. *)
Lemma facts_reports_what_it_finds_witness :
  LivednsFacts.main (facts_task (Some "test") (Some "A") None (Some "my.com")) false
                    (always (mkResponse 200 (Content (rrset "test" "A" 300 ["127.0.0.1"]))))
  = (exit_json false
       [("ansible_facts",
         JObj [("gandi_livedns_facts",
                JObj [("records",
                       JList [JObj [("name", JStr "test"); ("type", JStr "A");
                                    ("ttl", JNum 300);
                                    ("values", JList [JStr "127.0.0.1"]);
                                    ("domain", JStr "my.com")]])])])],
     [get_request "/domains/my.com/records/test/A"]).
Proof.
  refine (facts_reports_what_it_finds
           (facts_task (Some "test") (Some "A") None (Some "my.com")) false
           (LivednsFacts.mkModule
              (LivednsFacts.mkParams "dummyapitoken" (Some "test") (Some "A") None
                                     (Some "my.com")) false)
           (always (mkResponse 200 (Content (rrset "test" "A" 300 ["127.0.0.1"]))))
           (rrset "test" "A" 300 ["127.0.0.1"])
           (JList [JObj [("name", JStr "test"); ("type", JStr "A");
                         ("ttl", JNum 300);
                         ("values", JList [JStr "127.0.0.1"]);
                         ("domain", JStr "my.com")]]) _ _ _ _ _ _ _).
  - reflexivity.
  - reflexivity.
  - reflexivity.
  - reflexivity.
  - simpl. lia.
  - reflexivity.
  - reflexivity.
Defined.
